(** * DP83826 Ethernet PHY driver (drivers/phy/dp83826_driver.c)

    A shallow embedding of the driver and the proofs of its specification.

    The driver is a set of C functions that receive a pointer to the
    network interface, mutate some of its fields, and talk to their
    environment only through collaborators: a serial management interface
    (SMI) driver, an external interrupt line driver, the MAC (NIC) driver,
    the operating system event of the TCP/IP stack and the link change
    notification of the stack.  The embedding is a state monad over a
    [Machine]: the interface the pointer refers to, the values the hardware
    will answer to the coming register reads, and the chronological trace
    of every call that left the driver.

    The collaborators are not part of the driver.  A call to one of them is
    recorded in the trace with its arguments; a register read returns the
    next answer of the hardware; and no collaborator writes the fields of
    the interface that the driver owns, so the interface changes by the
    assignments of the driver only. *)

From Stdlib Require Import ZArith List Bool Lia.
Import ListNotations.
Local Open Scope Z_scope.

(** ** Types of the stack used by the driver *)

(** Modelled from the spec: [error_t] is declared in error.h, which is not
    part of the sources; the initializer's contract is
    [init(interface) -> success | failure]. *)
Inductive error_t : Set :=
| NO_ERROR
| ERROR_FAILURE.

(** Modelled from the spec: the link speed enumeration of core/nic.h
    ("enumerations {10 Mbps, 100 Mbps}"), with the value an interface holds
    before any link was seen. *)
Inductive NicLinkSpeed : Set :=
| NIC_LINK_SPEED_UNKNOWN
| NIC_LINK_SPEED_10MBPS
| NIC_LINK_SPEED_100MBPS.

(** Modelled from the spec: the duplex enumeration of core/nic.h
    ("{half, full}"), with the value an interface holds before any link
    was seen. *)
Inductive NicDuplexMode : Set :=
| NIC_UNKNOWN_DUPLEX_MODE
| NIC_HALF_DUPLEX_MODE
| NIC_FULL_DUPLEX_MODE.

(** The three collaborators are tables of function pointers that live
    outside the driver.  The driver only tests the pointers against NULL and
    calls through them, so a table is represented by a handle. *)
Inductive SmiDriver : Set := SmiDriverAt (handle : nat).
Inductive ExtIntDriver : Set := ExtIntDriverAt (handle : nat).
Inductive NicDriver : Set := NicDriverAt (handle : nat).

(** The fields of [NetInterface] the driver reads or writes.  A pointer that
    may be NULL is an [option]; [nicDriver] is never NULL. *)
Record NetInterface : Set := mkNetInterface {
  phyAddr : Z;                          (* uint8_t *)
  smiDriver : option SmiDriver;
  extIntDriver : option ExtIntDriver;
  nicDriver : NicDriver;
  linkState : bool;                     (* bool_t *)
  linkSpeed : NicLinkSpeed;
  duplexMode : NicDuplexMode;
  phyEvent : bool                       (* bool_t *)
}.

Definition set_phyAddr (v : Z) (i : NetInterface) : NetInterface :=
  mkNetInterface v (smiDriver i) (extIntDriver i) (nicDriver i)
    (linkState i) (linkSpeed i) (duplexMode i) (phyEvent i).

Definition set_linkState (v : bool) (i : NetInterface) : NetInterface :=
  mkNetInterface (phyAddr i) (smiDriver i) (extIntDriver i) (nicDriver i)
    v (linkSpeed i) (duplexMode i) (phyEvent i).

Definition set_linkSpeed (v : NicLinkSpeed) (i : NetInterface) : NetInterface :=
  mkNetInterface (phyAddr i) (smiDriver i) (extIntDriver i) (nicDriver i)
    (linkState i) v (duplexMode i) (phyEvent i).

Definition set_duplexMode (v : NicDuplexMode) (i : NetInterface) : NetInterface :=
  mkNetInterface (phyAddr i) (smiDriver i) (extIntDriver i) (nicDriver i)
    (linkState i) (linkSpeed i) v (phyEvent i).

Definition set_phyEvent (v : bool) (i : NetInterface) : NetInterface :=
  mkNetInterface (phyAddr i) (smiDriver i) (extIntDriver i) (nicDriver i)
    (linkState i) (linkSpeed i) (duplexMode i) v.

(** ** Constants of the headers

    dp83826_driver.h, core/nic.h and debug.h are not part of the sources.
    The register addresses, the bit masks, the SMI opcodes and the two trace
    switches the driver uses are the fields of a record, and every
    definition and theorem below is parametric in it. *)
Record Header : Set := mkHeader {
  DP83826_PHY_ADDR : Z;
  DP83826_BMCR : Z;
  DP83826_BMSR : Z;
  DP83826_PHYSTS : Z;
  DP83826_PHYSCR : Z;
  DP83826_MISR1 : Z;
  DP83826_BMCR_RESET : Z;
  DP83826_BMSR_LINK_STATUS : Z;
  DP83826_PHYSTS_DUPLEX_STATUS : Z;
  DP83826_PHYSTS_SPEED_STATUS : Z;
  DP83826_PHYSTS_LINK_STATUS : Z;
  DP83826_PHYSCR_INT_EN : Z;
  DP83826_PHYSCR_INT_OE : Z;
  DP83826_MISR1_LINK_INT : Z;
  DP83826_MISR1_LINK_INT_EN : Z;
  SMI_OPCODE_WRITE : Z;
  SMI_OPCODE_READ : Z;
  (* whether TRACE_INFO and TRACE_DEBUG expand to code at NIC_TRACE_LEVEL *)
  TRACE_INFO_on : bool;
  TRACE_DEBUG_on : bool
}.

(** The values of the DP83826 data sheet and of the stack's nic.h, with
    tracing compiled out.  Used for the concrete runs only. *)
Definition datasheet : Header :=
  {| DP83826_PHY_ADDR := 0;
     DP83826_BMCR := 0x00;
     DP83826_BMSR := 0x01;
     DP83826_PHYSTS := 0x10;
     DP83826_PHYSCR := 0x11;
     DP83826_MISR1 := 0x12;
     DP83826_BMCR_RESET := 0x8000;
     DP83826_BMSR_LINK_STATUS := 0x0004;
     DP83826_PHYSTS_DUPLEX_STATUS := 0x0004;
     DP83826_PHYSTS_SPEED_STATUS := 0x0002;
     DP83826_PHYSTS_LINK_STATUS := 0x0001;
     DP83826_PHYSCR_INT_EN := 0x0002;
     DP83826_PHYSCR_INT_OE := 0x0001;
     DP83826_MISR1_LINK_INT := 0x2000;
     DP83826_MISR1_LINK_INT_EN := 0x0020;
     SMI_OPCODE_WRITE := 1;
     SMI_OPCODE_READ := 2;
     TRACE_INFO_on := false;
     TRACE_DEBUG_on := false |}.

(** The same header with every trace macro compiled in. *)
Definition datasheet_traced : Header :=
  {| DP83826_PHY_ADDR := 0;
     DP83826_BMCR := 0x00;
     DP83826_BMSR := 0x01;
     DP83826_PHYSTS := 0x10;
     DP83826_PHYSCR := 0x11;
     DP83826_MISR1 := 0x12;
     DP83826_BMCR_RESET := 0x8000;
     DP83826_BMSR_LINK_STATUS := 0x0004;
     DP83826_PHYSTS_DUPLEX_STATUS := 0x0004;
     DP83826_PHYSTS_SPEED_STATUS := 0x0002;
     DP83826_PHYSTS_LINK_STATUS := 0x0001;
     DP83826_PHYSCR_INT_EN := 0x0002;
     DP83826_PHYSCR_INT_OE := 0x0001;
     DP83826_MISR1_LINK_INT := 0x2000;
     DP83826_MISR1_LINK_INT_EN := 0x0020;
     SMI_OPCODE_WRITE := 1;
     SMI_OPCODE_READ := 2;
     TRACE_INFO_on := true;
     TRACE_DEBUG_on := true |}.

(** ** The environment of the driver *)

(** The collaborator a register access is handed to. *)
Inductive Transport : Set :=
| ViaSmi (smi : SmiDriver)
| ViaNic (nic : NicDriver).

(** Every call that leaves the driver.  A callee that receives the interface
    pointer can read every field, so its event carries the interface as it
    is at the time of the call. *)
Inductive Event : Set :=
| EvTraceInfo                                           (* TRACE_INFO(...) *)
| EvTraceDebugReg (i value : Z)                         (* TRACE_DEBUG of a register *)
| EvTraceDebugEnd                                       (* the closing TRACE_DEBUG *)
| EvSmiInit (smi : SmiDriver)                           (* smiDriver->init() *)
| EvExtIntInit (ext : ExtIntDriver)                     (* extIntDriver->init() *)
| EvEnableIrq (ext : ExtIntDriver)                      (* extIntDriver->enableIrq() *)
| EvDisableIrq (ext : ExtIntDriver)                     (* extIntDriver->disableIrq() *)
| EvWritePhyReg (via : Transport) (opcode phy address data : Z)
| EvReadPhyReg (via : Transport) (opcode phy address value : Z)
| EvOsSetEvent                                          (* osSetEvent(&netEvent) *)
| EvUpdateMacConfig (nic : NicDriver) (seen : NetInterface)
| EvNicNotifyLinkChange (seen : NetInterface).

(** The state the driver runs in.  [device n] is the value the hardware
    answers to the [n]-th register read since power up, and [reads] counts
    the reads made so far: any behaviour of the chip over time, such as a
    reset bit that clears itself after a while, is one such sequence. *)
Record Machine : Type := mkMachine {
  interface : NetInterface;
  device : nat -> Z;
  reads : nat;
  trace : list Event
}.

(** A register holds 16 bits: what a read returns is a [uint16_t]. *)
Definition uint16 (z : Z) : Z := Z.land z 0xFFFF.

(** C truth of an integer: [if(x)], [x != 0], [x ? TRUE : FALSE]. *)
Definition nonzero (z : Z) : bool := negb (z =? 0).

(** The value the [k]-th coming register read returns ([k] = 0 for the
    next one). *)
Definition answer (m : Machine) (k : nat) : Z :=
  uint16 (device m (k + reads m)%nat).

(** ** The monad of the driver's code *)

Definition M (A : Type) : Type := Machine -> A * Machine.

Definition ret {A} (a : A) : M A := fun m => (a, m).

Definition bind {A B} (c : M A) (k : A -> M B) : M B :=
  fun m => let (a, m') := c m in k a m'.

Declare Scope drv_scope.
Delimit Scope drv_scope with drv.
Notation "x <- c ;; k" := (bind c (fun x => k))
  (at level 61, c at next level, right associativity) : drv_scope.
Notation "c ;; k" := (bind c (fun _ => k))
  (at level 61, right associativity) : drv_scope.
Local Open Scope drv_scope.

(** Final state and result of a run. *)
Definition exec {A} (c : M A) (m : Machine) : Machine := snd (c m).
Definition eval {A} (c : M A) (m : Machine) : A := fst (c m).

(** Reading the interface through the pointer, and assigning one field. *)
Definition getInterface : M NetInterface := fun m => (interface m, m).

Definition assign (f : NetInterface -> NetInterface) : M unit :=
  fun m => (tt, mkMachine (f (interface m)) (device m) (reads m) (trace m)).

(** A call that leaves the driver and returns nothing. *)
Definition emit (e : Event) : M unit :=
  fun m =>
    (tt, mkMachine (interface m) (device m) (reads m) (trace m ++ [e])).

(** A register read handed to a collaborator: the hardware's next answer is
    consumed and the call is recorded with the value it returned. *)
Definition busRead (via : Transport) (opcode phy address : Z) : M Z :=
  fun m =>
    let value := uint16 (device m (reads m)) in
    (value,
     mkMachine (interface m) (device m) (S (reads m))
       (trace m ++ [EvReadPhyReg via opcode phy address value])).

(** A register write handed to a collaborator. *)
Definition busWrite (via : Transport) (opcode phy address data : Z) : M unit :=
  emit (EvWritePhyReg via opcode phy address data).

(** [osSetEvent(&netEvent)] *)
Definition osSetEvent : M unit := emit EvOsSetEvent.

(** [nicNotifyLinkChange(interface)] *)
Definition nicNotifyLinkChange : M unit :=
  itf <- getInterface ;; emit (EvNicNotifyLinkChange itf).

(** [interface->nicDriver->updateMacConfig(interface)] *)
Definition updateMacConfig : M unit :=
  itf <- getInterface ;; emit (EvUpdateMacConfig (nicDriver itf) itf).

(** ** The driver *)

Section Driver.

Variable H : Header.

(** [void dp83826WritePhyReg(NetInterface *interface, uint8_t address,
    uint16_t data)] *)
Definition dp83826WritePhyReg (address data : Z) : M unit :=
  itf <- getInterface ;;
  match smiDriver itf with
  | Some smi =>
      busWrite (ViaSmi smi) (SMI_OPCODE_WRITE H) (phyAddr itf) address data
  | None =>
      busWrite (ViaNic (nicDriver itf)) (SMI_OPCODE_WRITE H) (phyAddr itf)
        address data
  end.

(** [uint16_t dp83826ReadPhyReg(NetInterface *interface, uint8_t address)] *)
Definition dp83826ReadPhyReg (address : Z) : M Z :=
  itf <- getInterface ;;
  match smiDriver itf with
  | Some smi =>
      data <- busRead (ViaSmi smi) (SMI_OPCODE_READ H) (phyAddr itf) address ;;
      ret data
  | None =>
      data <- busRead (ViaNic (nicDriver itf)) (SMI_OPCODE_READ H)
                (phyAddr itf) address ;;
      ret data
  end.

(** The body of the loop of [dp83826DumpPhyReg], run for the [count]
    registers from [i] on. *)
Fixpoint dumpFrom (count : nat) (i : Z) : M unit :=
  match count with
  | O => ret tt
  | S count' =>
      (if TRACE_DEBUG_on H
       then value <- dp83826ReadPhyReg i ;; emit (EvTraceDebugReg i value)
       else ret tt) ;;
      dumpFrom count' (i + 1)
  end.

(** [void dp83826DumpPhyReg(NetInterface *interface)]: [i] runs from 0 to
    31.  The register is read inside the argument list of TRACE_DEBUG, so
    there is no read when the macro expands to nothing. *)
Definition dp83826DumpPhyReg : M unit :=
  dumpFrom 32 0 ;;
  (if TRACE_DEBUG_on H then emit EvTraceDebugEnd else ret tt).

(** [void dp83826Tick(NetInterface *interface)] *)
Definition dp83826Tick : M unit :=
  itf <- getInterface ;;
  match extIntDriver itf with
  | None =>
      value <- dp83826ReadPhyReg (DP83826_BMSR H) ;;
      let linkState' := nonzero (Z.land value (DP83826_BMSR_LINK_STATUS H)) in
      itf <- getInterface ;;
      if linkState' && negb (linkState itf) then
        assign (set_phyEvent true) ;;
        osSetEvent
      else if negb linkState' && linkState itf then
        assign (set_phyEvent true) ;;
        osSetEvent
      else ret tt
  | Some _ => ret tt
  end.

(** [void dp83826EnableIrq(NetInterface *interface)] *)
Definition dp83826EnableIrq : M unit :=
  itf <- getInterface ;;
  match extIntDriver itf with
  | Some ext => emit (EvEnableIrq ext)
  | None => ret tt
  end.

(** [void dp83826DisableIrq(NetInterface *interface)] *)
Definition dp83826DisableIrq : M unit :=
  itf <- getInterface ;;
  match extIntDriver itf with
  | Some ext => emit (EvDisableIrq ext)
  | None => ret tt
  end.

(** [void dp83826EventHandler(NetInterface *interface)] *)
Definition dp83826EventHandler : M unit :=
  status <- dp83826ReadPhyReg (DP83826_MISR1 H) ;;
  if nonzero (Z.land status (DP83826_MISR1_LINK_INT H)) then
    status <- dp83826ReadPhyReg (DP83826_PHYSTS H) ;;
    (if nonzero (Z.land status (DP83826_PHYSTS_LINK_STATUS H)) then
       (if nonzero (Z.land status (DP83826_PHYSTS_SPEED_STATUS H))
        then assign (set_linkSpeed NIC_LINK_SPEED_10MBPS)
        else assign (set_linkSpeed NIC_LINK_SPEED_100MBPS)) ;;
       (if nonzero (Z.land status (DP83826_PHYSTS_DUPLEX_STATUS H))
        then assign (set_duplexMode NIC_FULL_DUPLEX_MODE)
        else assign (set_duplexMode NIC_HALF_DUPLEX_MODE)) ;;
       assign (set_linkState true) ;;
       updateMacConfig
     else
       assign (set_linkState false)) ;;
    nicNotifyLinkChange
  else ret tt.

(** The statements of [dp83826Init] up to and including the reset write
    (lines 62 to 85). *)
Definition initReset : M unit :=
  (if TRACE_INFO_on H then emit EvTraceInfo else ret tt) ;;
  itf <- getInterface ;;
  (if phyAddr itf >=? 32
   then assign (set_phyAddr (DP83826_PHY_ADDR H))
   else ret tt) ;;
  itf <- getInterface ;;
  (match smiDriver itf with
   | Some smi => emit (EvSmiInit smi)
   | None => ret tt
   end) ;;
  (match extIntDriver itf with
   | Some ext => emit (EvExtIntInit ext)
   | None => ret tt
   end) ;;
  dp83826WritePhyReg (DP83826_BMCR H) (DP83826_BMCR_RESET H).

(** [while(dp83826ReadPhyReg(interface, DP83826_BMCR) & DP83826_BMCR_RESET)
    { }].  The loop has no bound of its own: [fuel] is the number of reads
    the model is allowed, and [None] says that they were all used up with the
    reset bit still set. *)
Fixpoint waitReset (fuel : nat) (m : Machine) : option (unit * Machine) :=
  match fuel with
  | O => None
  | S fuel' =>
      let (value, m') := dp83826ReadPhyReg (DP83826_BMCR H) m in
      if nonzero (Z.land value (DP83826_BMCR_RESET H))
      then waitReset fuel' m'
      else Some (tt, m')
  end.

(** The statements of [dp83826Init] after the loop (lines 92 to 108). *)
Definition initConfigure : M error_t :=
  dp83826DumpPhyReg ;;
  dp83826WritePhyReg (DP83826_PHYSCR H)
    (Z.lor (DP83826_PHYSCR_INT_EN H) (DP83826_PHYSCR_INT_OE H)) ;;
  dp83826WritePhyReg (DP83826_MISR1 H) (DP83826_MISR1_LINK_INT_EN H) ;;
  assign (set_phyEvent true) ;;
  osSetEvent ;;
  ret NO_ERROR.

(** [error_t dp83826Init(NetInterface *interface)] *)
Definition dp83826Init (fuel : nat) (m : Machine) : option (error_t * Machine) :=
  let (_, m1) := initReset m in
  match waitReset fuel m1 with
  | None => None
  | Some (_, m2) => Some (initConfigure m2)
  end.

End Driver.

(** ** Concrete interfaces and devices for the runs *)

(** An interface as the stack hands it to the driver: no link yet, the PHY
    address not chosen. *)
Definition fresh_interface (smi : option SmiDriver) (ext : option ExtIntDriver)
  : NetInterface :=
  mkNetInterface 32 smi ext (NicDriverAt 0)
    false NIC_LINK_SPEED_UNKNOWN NIC_UNKNOWN_DUPLEX_MODE false.

(** A device that answers the values of [l] to the coming reads, then 0. *)
Definition answers (l : list Z) : nat -> Z := fun n => nth n l 0.

(** A device whose every answer is [v]. *)
Definition always (v : Z) : nat -> Z := fun _ => v.

Definition boot (itf : NetInterface) (dev : nat -> Z) : Machine :=
  mkMachine itf dev 0 [].

(** An interface that was up at 10 Mbps, half duplex. *)
Definition up_10_half : NetInterface :=
  mkNetInterface 0 None None (NicDriverAt 0)
    true NIC_LINK_SPEED_10MBPS NIC_HALF_DUPLEX_MODE false.

(** The event handler finds the link change bit set in MISR1 (0x2000), then
    in PHYSTS: link up, 100 Mbps, duplex bit set (0x0005). *)
Definition irq_up_100_duplex_set : Machine :=
  boot (fresh_interface None None) (answers [0x2000; 0x0005]).

(** Link change bit set, then link up, speed bit set, duplex bit clear
    (0x0003). *)
Definition irq_up_10_duplex_clear : Machine :=
  boot (fresh_interface None None) (answers [0x2000; 0x0003]).

(** Link change bit set, then PHYSTS with the link bit clear and the speed
    and duplex bits set (0x0006), on an interface that was up. *)
Definition irq_down : Machine :=
  boot up_10_half (answers [0x2000; 0x0006]).

(** Link change bit set, then link up at 10 Mbps, half duplex (0x0003), on
    an interface that already holds exactly that state. *)
Definition irq_same_state : Machine :=
  boot up_10_half (answers [0x2000; 0x0003]).

(** A polled interface (no interrupt line) that is down while the basic
    status register keeps answering link up (0x0004). *)
Definition poll_link_rose : Machine :=
  boot (fresh_interface None None) (always 0x0004).

(** A polled interface that is down while the register keeps answering link
    down. *)
Definition poll_still_down : Machine :=
  boot (fresh_interface None None) (always 0).

(** An interface with an interrupt line, down, while the register answers
    link up. *)
Definition irq_driven_link_rose : Machine :=
  boot (fresh_interface None (Some (ExtIntDriverAt 7))) (always 0x0004).

(** A machine with every trace macro compiled in, whose chip answers the
    reset bit set, set, then clear, and 0 from then on. *)
Definition traced_reset : Machine :=
  boot (fresh_interface None (Some (ExtIntDriverAt 7)))
       (answers [0x8000; 0x8000; 0x0000]).

(** An interface whose address was left undefined (40), with a serial
    management interface driver, in front of a chip that answers the reset
    bit set, set, then clear to the reads of the control register. *)
Definition reset_set_set_clear : Machine :=
  boot (mkNetInterface 40 (Some (SmiDriverAt 1)) None (NicDriverAt 0)
          false NIC_LINK_SPEED_UNKNOWN NIC_UNKNOWN_DUPLEX_MODE false)
       (answers [0x8000; 0x8000; 0x0000]).

(** A chip whose reset bit never clears. *)
Definition reset_stuck : Machine :=
  boot (fresh_interface None None) (always 0x8000).

(** An interface with its event flag already set, and a link change to
    handle. *)
Definition event_pending : Machine :=
  boot (set_phyEvent true up_10_half) (answers [0x2000; 0x0006]).

(** Link change bit clear in MISR1 (0x0020 is the enable bit alone). *)
Definition irq_none : Machine :=
  boot up_10_half (answers [0x0020; 0x0005]).


(** ** The driver table

    [const PhyDriver dp83826PhyDriver = {dp83826Init, dp83826Tick,
    dp83826EnableIrq, dp83826DisableIrq, dp83826EventHandler}]: the five
    entry points the stack calls.  A call of the table returns the machine it
    leaves, or nothing when the initializer is still in its loop after
    [fuel] reads. *)
Inductive Operation : Set :=
| OpInit (fuel : nat)
| OpTick
| OpEnableIrq
| OpDisableIrq
| OpEventHandler.

Definition dp83826PhyDriver (H : Header) (op : Operation) (m : Machine)
  : option Machine :=
  match op with
  | OpInit fuel => option_map snd (dp83826Init H fuel m)
  | OpTick => Some (exec (dp83826Tick H) m)
  | OpEnableIrq => Some (exec dp83826EnableIrq m)
  | OpDisableIrq => Some (exec dp83826DisableIrq m)
  | OpEventHandler => Some (exec (dp83826EventHandler H) m)
  end.

(** The stack calling the table for each operation of [ops] in turn. *)
Fixpoint calls (H : Header) (ops : list Operation) (m : Machine)
  : option Machine :=
  match ops with
  | [] => Some m
  | op :: ops' =>
      match dp83826PhyDriver H op m with
      | Some m' => calls H ops' m'
      | None => None
      end
  end.

(** The stack's timer calling [dp83826Tick] [n] times in a row. *)
Fixpoint ticks (H : Header) (n : nat) (m : Machine) : Machine :=
  match n with
  | O => m
  | S n' => ticks H n' (exec (dp83826Tick H) m)
  end.

(** ** Vocabulary of the statements *)

(** The calls a piece of code adds to the trace of the machine it starts
    in. *)
Definition emitted {A} (c : M A) (m : Machine) : list Event :=
  skipn (length (trace m)) (trace (exec c m)).

(** The same for two machines, the second reached from the first. *)
Definition emitted_between (m m' : Machine) : list Event :=
  skipn (length (trace m)) (trace m').

Definition is_updateMacConfig (e : Event) : bool :=
  match e with EvUpdateMacConfig _ _ => true | _ => false end.

Definition is_nicNotifyLinkChange (e : Event) : bool :=
  match e with EvNicNotifyLinkChange _ => true | _ => false end.

Definition is_osSetEvent (e : Event) : bool :=
  match e with EvOsSetEvent => true | _ => false end.

Definition is_read (e : Event) : bool :=
  match e with EvReadPhyReg _ _ _ _ _ => true | _ => false end.

(** How many events of one kind a trace holds. *)
Definition count (kind : Event -> bool) (l : list Event) : nat :=
  length (filter kind l).

(** The collaborator the routing rule selects for an interface. *)
Definition transport (itf : NetInterface) : Transport :=
  match smiDriver itf with
  | Some smi => ViaSmi smi
  | None => ViaNic (nicDriver itf)
  end.

(** A register access carries the fixed opcode of its direction and the PHY
    address of the interface, and goes to the collaborator of the routing
    rule; other events are not concerned. *)
Definition routed (H : Header) (itf : NetInterface) (e : Event) : Prop :=
  match e with
  | EvWritePhyReg via opcode phy _ _ =>
      via = transport itf /\ opcode = SMI_OPCODE_WRITE H /\ phy = phyAddr itf
  | EvReadPhyReg via opcode phy _ _ =>
      via = transport itf /\ opcode = SMI_OPCODE_READ H /\ phy = phyAddr itf
  | _ => True
  end.

(** The access went to the MAC collaborator, or to the serial management
    collaborator. *)
Definition via_nic (e : Event) : bool :=
  match e with
  | EvWritePhyReg (ViaNic _) _ _ _ _ | EvReadPhyReg (ViaNic _) _ _ _ _ => true
  | _ => false
  end.

Definition via_smi (e : Event) : bool :=
  match e with
  | EvWritePhyReg (ViaSmi _) _ _ _ _ | EvReadPhyReg (ViaSmi _) _ _ _ _ => true
  | _ => false
  end.

(** [n] reads in a row of the register at [address], which return the
    first [n] answers. *)
Definition regReads (H : Header) (m : Machine) (address : Z) (n : nat)
  : list Event :=
  map (fun k => EvReadPhyReg (transport (interface m)) (SMI_OPCODE_READ H)
                  (phyAddr (interface m)) address (answer m k))
      (seq 0 n).

(** The reads of the basic status register by [n] ticks. *)
Definition statusReads (H : Header) (m : Machine) (n : nat) : list Event :=
  regReads H m (DP83826_BMSR H) n.

(** The link bit of the [k]-th coming answer. *)
Definition linkBit (H : Header) (m : Machine) (k : nat) : bool :=
  nonzero (Z.land (answer m k) (DP83826_BMSR_LINK_STATUS H)).

(** The reset bit of the [k]-th coming answer. *)
Definition resetBit (H : Header) (m : Machine) (k : nat) : bool :=
  nonzero (Z.land (answer m k) (DP83826_BMCR_RESET H)).

(** The reads of the control register by [n] rounds of the reset loop. *)
Definition resetReads (H : Header) (m : Machine) (n : nat) : list Event :=
  regReads H m (DP83826_BMCR H) n.

(** The machine the reset loop leaves when it started in [m] and the
    [k]-th coming answer was the one that let it exit. *)
Definition afterReset (H : Header) (m : Machine) (k : nat) : Machine :=
  mkMachine (interface m) (device m) (S k + reads m)
    (trace m ++ resetReads H m (S k)).

(** The [k]-th coming answer is the first with the reset bit clear. *)
Definition firstClear (H : Header) (m : Machine) (k : nat) : Prop :=
  (forall j, (j < k)%nat -> resetBit H m j = true) /\ resetBit H m k = false.

(** A relation between the machine a piece of code starts in and the one it
    leaves holds for every run of the code. *)
Definition respects (R : Machine -> Machine -> Prop) {A} (c : M A) : Prop :=
  forall m, R m (exec c m).

(** [m'] is reached from [m] by calls that all follow the routing rule, the
    interface keeping its collaborators and its PHY address. *)
Definition routes (H : Header) (m m' : Machine) : Prop :=
  transport (interface m') = transport (interface m) /\
  phyAddr (interface m') = phyAddr (interface m) /\
  exists evs,
    trace m' = trace m ++ evs /\ Forall (routed H (interface m)) evs.

(** A register read or a register write. *)
Definition is_access (e : Event) : bool :=
  match e with
  | EvWritePhyReg _ _ _ _ _ | EvReadPhyReg _ _ _ _ _ => true
  | _ => false
  end.


(** ** Vocabulary of the further properties *)

Definition is_write (e : Event) : bool :=
  match e with EvWritePhyReg _ _ _ _ _ => true | _ => false end.

(** The PHY address a register access carries. *)
Definition accessPhy (e : Event) : option Z :=
  match e with
  | EvWritePhyReg _ _ phy _ _ | EvReadPhyReg _ _ phy _ _ => Some phy
  | _ => None
  end.

(** The register addresses of the reads of a trace, in the order of the
    reads. *)
Fixpoint readAddresses (l : list Event) : list Z :=
  match l with
  | [] => []
  | EvReadPhyReg _ _ _ address _ :: l' => address :: readAddresses l'
  | _ :: l' => readAddresses l'
  end.

(** The calls of the loop of the dump over [count] registers from [i] on,
    when TRACE_DEBUG is compiled in: each register is read and traced with
    the value the read returned. *)
Definition dumpEvents (H : Header) (m : Machine) (count : nat) (i : Z)
  : list Event :=
  flat_map
    (fun k =>
       [EvReadPhyReg (transport (interface m)) (SMI_OPCODE_READ H)
          (phyAddr (interface m)) (i + Z.of_nat k) (answer m k);
        EvTraceDebugReg (i + Z.of_nat k) (answer m k)])
    (seq 0 count).

(** The register address and the data of the writes of a trace, in the order
    of the writes. *)
Fixpoint registerWrites (l : list Event) : list (Z * Z) :=
  match l with
  | [] => []
  | EvWritePhyReg _ _ _ address data :: l' =>
      (address, data) :: registerWrites l'
  | _ :: l' => registerWrites l'
  end.

(** The interface once the initializer has settled the PHY address. *)
Definition settleAddress (H : Header) (itf : NetInterface) : NetInterface :=
  if phyAddr itf >=? 32 then set_phyAddr (DP83826_PHY_ADDR H) itf else itf.

(** The calls of a run of the initializer whose reset loop exits at the
    [k]-th coming answer, in their order. *)
Definition initCalls (H : Header) (m : Machine) (k : nat) : list Event :=
  let itf := settleAddress H (interface m) in
  let wr address data :=
    EvWritePhyReg (transport itf) (SMI_OPCODE_WRITE H) (phyAddr itf)
      address data in
  (if TRACE_INFO_on H then [EvTraceInfo] else [])
  ++ match smiDriver itf with Some smi => [EvSmiInit smi] | None => [] end
  ++ match extIntDriver itf with
     | Some ext => [EvExtIntInit ext]
     | None => []
     end
  ++ [wr (DP83826_BMCR H) (DP83826_BMCR_RESET H)]
  ++ regReads H (mkMachine itf (device m) (reads m) []) (DP83826_BMCR H) (S k)
  ++ (if TRACE_DEBUG_on H
      then dumpEvents H (mkMachine itf (device m) (S k + reads m) []) 32 0
           ++ [EvTraceDebugEnd]
      else [])
  ++ [wr (DP83826_PHYSCR H)
        (Z.lor (DP83826_PHYSCR_INT_EN H) (DP83826_PHYSCR_INT_OE H));
      wr (DP83826_MISR1 H) (DP83826_MISR1_LINK_INT_EN H);
      EvOsSetEvent].

(** The [k]-th coming poll of the link bit differs from the stored link
    state. *)
Definition pollDiffers (H : Header) (m : Machine) (k : nat) : bool :=
  negb (Bool.eqb (linkBit H m k) (linkState (interface m))).

(** The calls of the tick that makes the [k]-th coming poll. *)
Definition pollEvents (H : Header) (m : Machine) (k : nat) : list Event :=
  EvReadPhyReg (transport (interface m)) (SMI_OPCODE_READ H)
    (phyAddr (interface m)) (DP83826_BMSR H) (answer m k)
  :: (if pollDiffers H m k then [EvOsSetEvent] else []).

(** An interface that is up knows its speed and its duplex mode. *)
Definition known_when_up (itf : NetInterface) : Prop :=
  linkState itf = true ->
  linkSpeed itf <> NIC_LINK_SPEED_UNKNOWN /\
  duplexMode itf <> NIC_UNKNOWN_DUPLEX_MODE.

(** The two entry points that gate the interrupt line, and the call each
    makes to an interrupt line driver. *)
Definition is_gate (op : Operation) : bool :=
  match op with OpEnableIrq | OpDisableIrq => true | _ => false end.

Definition gateEvent (ext : ExtIntDriver) (op : Operation) : list Event :=
  match op with
  | OpEnableIrq => [EvEnableIrq ext]
  | OpDisableIrq => [EvDisableIrq ext]
  | _ => []
  end.

(** A polled interface, down, whose status register answers link up, up,
    down, up. *)
Definition poll_flapping : Machine :=
  boot (fresh_interface None None) (answers [0x0004; 0x0004; 0x0000; 0x0004]).

(** A polled interface, down: the handler finds a link change and the link
    up at 100 Mbps with the duplex bit set, and the status register polled
    next answers link up. *)
Definition poll_after_handler : Machine :=
  boot (fresh_interface None None) (answers [0x2000; 0x0005; 0x0004]).

(** A polled interface, down and with nothing known of its link, in front
    of a chip that answers: the reset bit clear to the initializer; a link
    change and the link up at 10 Mbps, half duplex to a first run of the
    event handler; link up to a tick; a link change and the link up at 100
    Mbps with the duplex bit set to a second run of the event handler. *)
Definition boot_then_link_up : Machine :=
  boot (fresh_interface None None)
       (answers [0x0000; 0x2000; 0x0003; 0x0004; 0x2000; 0x0005]).

(** The chip answers the same interrupt status and PHY status twice. *)
Definition irq_twice : Machine :=
  boot up_10_half (answers [0x2000; 0x0005; 0x2000; 0x0005]).

(** The machine a run of the initializer leaves from [reset_set_set_clear]. *)
Definition after_init : Machine :=
  mkMachine
    (mkNetInterface 0 (Some (SmiDriverAt 1)) None (NicDriverAt 0)
       false NIC_LINK_SPEED_UNKNOWN NIC_UNKNOWN_DUPLEX_MODE true)
    (answers [0x8000; 0x8000; 0x0000]) 3
    [EvSmiInit (SmiDriverAt 1);
     EvWritePhyReg (ViaSmi (SmiDriverAt 1)) 1 0 0x00 0x8000;
     EvReadPhyReg (ViaSmi (SmiDriverAt 1)) 2 0 0x00 0x8000;
     EvReadPhyReg (ViaSmi (SmiDriverAt 1)) 2 0 0x00 0x8000;
     EvReadPhyReg (ViaSmi (SmiDriverAt 1)) 2 0 0x00 0x0000;
     EvWritePhyReg (ViaSmi (SmiDriverAt 1)) 1 0 0x11 0x0003;
     EvWritePhyReg (ViaSmi (SmiDriverAt 1)) 1 0 0x12 0x0020;
     EvOsSetEvent].

(** * Proofs *)

(** ** Symbolic execution *)

Lemma skipn_length_app {A} (l l' : list A) : skipn (length l) (l ++ l') = l'.
Proof. induction l; cbn; auto. Qed.

Ltac unfold_monad :=
  unfold exec, eval, updateMacConfig, nicNotifyLinkChange, osSetEvent,
    busRead, busWrite, emit, assign, getInterface, bind, ret in *.

Ltac tidy_trace :=
  repeat rewrite <- app_assoc; cbn [app].

Lemma writePhyReg_run H address data m :
  dp83826WritePhyReg H address data m =
  (tt, mkMachine (interface m) (device m) (reads m)
         (trace m ++ [EvWritePhyReg (transport (interface m))
                        (SMI_OPCODE_WRITE H) (phyAddr (interface m))
                        address data])).
Proof.
  unfold dp83826WritePhyReg, transport; unfold_monad.
  destruct (smiDriver (interface m)); reflexivity.
Qed.

Lemma readPhyReg_run H address m :
  dp83826ReadPhyReg H address m =
  (answer m 0,
   mkMachine (interface m) (device m) (S (reads m))
     (trace m ++ [EvReadPhyReg (transport (interface m))
                    (SMI_OPCODE_READ H) (phyAddr (interface m))
                    address (answer m 0)])).
Proof.
  unfold dp83826ReadPhyReg, transport, answer; unfold_monad.
  destruct (smiDriver (interface m)); reflexivity.
Qed.

(** The event handler, path by path. *)
Lemma eventHandler_run H m :
  let itf := interface m in
  let rd address k :=
    EvReadPhyReg (transport itf) (SMI_OPCODE_READ H) (phyAddr itf) address
      (answer m k) in
  let up :=
    set_linkState true
      (set_duplexMode
         (if nonzero (Z.land (answer m 1) (DP83826_PHYSTS_DUPLEX_STATUS H))
          then NIC_FULL_DUPLEX_MODE else NIC_HALF_DUPLEX_MODE)
         (set_linkSpeed
            (if nonzero (Z.land (answer m 1) (DP83826_PHYSTS_SPEED_STATUS H))
             then NIC_LINK_SPEED_10MBPS else NIC_LINK_SPEED_100MBPS)
            itf)) in
  exec (dp83826EventHandler H) m =
  if nonzero (Z.land (answer m 0) (DP83826_MISR1_LINK_INT H)) then
    if nonzero (Z.land (answer m 1) (DP83826_PHYSTS_LINK_STATUS H)) then
      mkMachine up (device m) (2 + reads m)
        (trace m ++ [rd (DP83826_MISR1 H) 0%nat; rd (DP83826_PHYSTS H) 1%nat;
                     EvUpdateMacConfig (nicDriver itf) up;
                     EvNicNotifyLinkChange up])
    else
      mkMachine (set_linkState false itf) (device m) (2 + reads m)
        (trace m ++ [rd (DP83826_MISR1 H) 0%nat; rd (DP83826_PHYSTS H) 1%nat;
                     EvNicNotifyLinkChange (set_linkState false itf)])
  else
    mkMachine itf (device m) (1 + reads m)
      (trace m ++ [rd (DP83826_MISR1 H) 0%nat]).
Proof.
  intros itf rd up. subst itf rd up.
  unfold exec, dp83826EventHandler, bind.
  rewrite readPhyReg_run.
  destruct (nonzero (Z.land (answer m 0) (DP83826_MISR1_LINK_INT H))).
  2: reflexivity.
  rewrite readPhyReg_run.
  unfold answer; cbn [reads interface device trace Nat.add].
  destruct (nonzero (Z.land (uint16 (device m (S (reads m))))
                       (DP83826_PHYSTS_LINK_STATUS H))).
  - destruct (nonzero (Z.land (uint16 (device m (S (reads m))))
                         (DP83826_PHYSTS_SPEED_STATUS H))),
      (nonzero (Z.land (uint16 (device m (S (reads m))))
                  (DP83826_PHYSTS_DUPLEX_STATUS H)));
      unfold_monad; cbn; tidy_trace; reflexivity.
  - unfold_monad; cbn; tidy_trace; reflexivity.
Qed.

(** What the handler adds to the trace, path by path. *)
Lemma eventHandler_emitted H m :
  let itf := interface m in
  let rd address k :=
    EvReadPhyReg (transport itf) (SMI_OPCODE_READ H) (phyAddr itf) address
      (answer m k) in
  let m' := exec (dp83826EventHandler H) m in
  emitted (dp83826EventHandler H) m =
  if nonzero (Z.land (answer m 0) (DP83826_MISR1_LINK_INT H)) then
    if nonzero (Z.land (answer m 1) (DP83826_PHYSTS_LINK_STATUS H)) then
      [rd (DP83826_MISR1 H) 0%nat; rd (DP83826_PHYSTS H) 1%nat;
       EvUpdateMacConfig (nicDriver itf) (interface m');
       EvNicNotifyLinkChange (interface m')]
    else
      [rd (DP83826_MISR1 H) 0%nat; rd (DP83826_PHYSTS H) 1%nat;
       EvNicNotifyLinkChange (interface m')]
  else [rd (DP83826_MISR1 H) 0%nat].
Proof.
  cbv zeta. unfold emitted. rewrite eventHandler_run.
  destruct (nonzero (Z.land (answer m 0) (DP83826_MISR1_LINK_INT H)));
    [destruct (nonzero (Z.land (answer m 1) (DP83826_PHYSTS_LINK_STATUS H))) |];
    cbn [trace interface]; apply skipn_length_app.
Qed.

(** The trace only grows: [emitted] is what the handler appended. *)
Lemma eventHandler_trace H m :
  trace (exec (dp83826EventHandler H) m) =
  trace m ++ emitted (dp83826EventHandler H) m.
Proof.
  unfold emitted. rewrite eventHandler_run.
  destruct (nonzero (Z.land (answer m 0) (DP83826_MISR1_LINK_INT H)));
    [destruct (nonzero (Z.land (answer m 1) (DP83826_PHYSTS_LINK_STATUS H))) |];
    cbn [trace]; now rewrite skipn_length_app.
Qed.

(** ** The event handler *)

(** C1, as the specification states it, fails: with the link change bit set
    (MISR1 = 0x2000) and PHYSTS = 0x0005 (link up, duplex bit set) the handler
    leaves the interface in full duplex, not in half duplex. *)
Lemma duplex_half_if_set_counterexample :
  nonzero (Z.land (answer irq_up_100_duplex_set 0)
             (DP83826_MISR1_LINK_INT datasheet)) = true /\
  nonzero (Z.land (answer irq_up_100_duplex_set 1)
             (DP83826_PHYSTS_LINK_STATUS datasheet)) = true /\
  nonzero (Z.land (answer irq_up_100_duplex_set 1)
             (DP83826_PHYSTS_DUPLEX_STATUS datasheet)) = true /\
  duplexMode (interface (exec (dp83826EventHandler datasheet)
                           irq_up_100_duplex_set))
    = NIC_FULL_DUPLEX_MODE /\
  duplexMode (interface (exec (dp83826EventHandler datasheet)
                           irq_up_100_duplex_set))
    <> NIC_HALF_DUPLEX_MODE.
Proof. repeat split; vm_compute; congruence. Qed.

(** C1, amended: when the link change bit is set in the interrupt status read
    and the PHY status register has the link bit set, the handler sets the
    duplex mode to full duplex if the duplex status bit is set and to half
    duplex if it is clear, whatever the other bits of the status are. *)
Theorem event_handler_duplex_decode (H : Header) (m : Machine) :
  nonzero (Z.land (answer m 0) (DP83826_MISR1_LINK_INT H)) = true ->
  nonzero (Z.land (answer m 1) (DP83826_PHYSTS_LINK_STATUS H)) = true ->
  duplexMode (interface (exec (dp83826EventHandler H) m)) =
  if nonzero (Z.land (answer m 1) (DP83826_PHYSTS_DUPLEX_STATUS H))
  then NIC_FULL_DUPLEX_MODE
  else NIC_HALF_DUPLEX_MODE.
Proof.
  intros Hint Hup. rewrite eventHandler_run. cbv zeta.
  rewrite Hint, Hup. reflexivity.
Qed.

Lemma event_handler_duplex_decode_witness :
  duplexMode (interface (exec (dp83826EventHandler datasheet)
                           irq_up_10_duplex_clear))
    = NIC_HALF_DUPLEX_MODE.
Proof.
  exact (event_handler_duplex_decode datasheet irq_up_10_duplex_clear
           eq_refl eq_refl).
Defined.

(** C4: when the link change bit is set and the PHY status register has the
    link bit set, the handler sets the speed to 10 Mbps if the speed status
    bit is set and to 100 Mbps otherwise, sets the link state to true and
    calls [updateMacConfig] of the MAC collaborator, once; and for every run
    of the handler, [updateMacConfig] is called if and only if the link
    change bit and the link bit are both set. *)
Theorem event_handler_link_up (H : Header) (m : Machine) :
  let link_change := nonzero (Z.land (answer m 0) (DP83826_MISR1_LINK_INT H)) in
  let link_up := nonzero (Z.land (answer m 1) (DP83826_PHYSTS_LINK_STATUS H)) in
  let m' := exec (dp83826EventHandler H) m in
  (link_change = true -> link_up = true ->
   linkSpeed (interface m') =
     (if nonzero (Z.land (answer m 1) (DP83826_PHYSTS_SPEED_STATUS H))
      then NIC_LINK_SPEED_10MBPS else NIC_LINK_SPEED_100MBPS) /\
   linkState (interface m') = true /\
   count is_updateMacConfig (emitted (dp83826EventHandler H) m) = 1%nat) /\
  ((exists nic seen,
       In (EvUpdateMacConfig nic seen) (emitted (dp83826EventHandler H) m))
   <-> link_change = true /\ link_up = true) /\
  (link_change && link_up = false ->
   count is_updateMacConfig (emitted (dp83826EventHandler H) m) = 0%nat).
Proof.
  cbv zeta. rewrite eventHandler_emitted. cbv zeta.
  rewrite eventHandler_run. cbv zeta.
  destruct (nonzero (Z.land (answer m 0) (DP83826_MISR1_LINK_INT H)));
    [destruct (nonzero (Z.land (answer m 1) (DP83826_PHYSTS_LINK_STATUS H))) |];
    cbn.
  - split; [auto | split; [| discriminate]].
    split; [auto |]. intros _.
    eexists _, _. right; right; left; reflexivity.
  - split; [discriminate | split; [| reflexivity]].
    split.
    + intros (nic & seen & Hin).
      destruct Hin as [E | [E | [E | []]]]; discriminate.
    + intros [_ E]; discriminate.
  - split; [discriminate | split; [| reflexivity]].
    split.
    + intros (nic & seen & Hin).
      destruct Hin as [E | []]; discriminate.
    + intros [E _]; discriminate.
Qed.

Lemma event_handler_link_up_witness :
  linkSpeed (interface (exec (dp83826EventHandler datasheet)
                          irq_up_10_duplex_clear)) = NIC_LINK_SPEED_10MBPS /\
  linkState (interface (exec (dp83826EventHandler datasheet)
                          irq_up_10_duplex_clear)) = true /\
  count is_updateMacConfig
    (emitted (dp83826EventHandler datasheet) irq_up_10_duplex_clear) = 1%nat.
Proof.
  exact (proj1 (event_handler_link_up datasheet irq_up_10_duplex_clear)
           eq_refl eq_refl).
Defined.

(** C5: the handler calls [nicNotifyLinkChange] if and only if the link
    change bit is set in the value read from the interrupt status register.
    With the bit set there is exactly one notification, whatever the old and
    the new state of the interface are; with the bit clear the interface is
    left as it was and the only call that leaves the driver is the read of
    the interrupt status register. *)
Theorem event_handler_notification (H : Header) (m : Machine) :
  let link_change := nonzero (Z.land (answer m 0) (DP83826_MISR1_LINK_INT H)) in
  let m' := exec (dp83826EventHandler H) m in
  ((exists seen,
       In (EvNicNotifyLinkChange seen) (emitted (dp83826EventHandler H) m))
   <-> link_change = true) /\
  (link_change = true ->
   count is_nicNotifyLinkChange (emitted (dp83826EventHandler H) m) = 1%nat /\
   In (EvNicNotifyLinkChange (interface m'))
     (emitted (dp83826EventHandler H) m)) /\
  (link_change = false ->
   interface m' = interface m /\
   emitted (dp83826EventHandler H) m =
     [EvReadPhyReg (transport (interface m)) (SMI_OPCODE_READ H)
        (phyAddr (interface m)) (DP83826_MISR1 H) (answer m 0)] /\
   count is_nicNotifyLinkChange (emitted (dp83826EventHandler H) m) = 0%nat).
Proof.
  cbv zeta. rewrite eventHandler_emitted. cbv zeta.
  rewrite eventHandler_run. cbv zeta.
  destruct (nonzero (Z.land (answer m 0) (DP83826_MISR1_LINK_INT H)));
    [destruct (nonzero (Z.land (answer m 1) (DP83826_PHYSTS_LINK_STATUS H))) |];
    cbn.
  - split; [| split; [| discriminate]].
    + split; [auto |]. intros _. eexists. right; right; right; left.
      reflexivity.
    + intros _. split; [reflexivity | auto].
  - split; [| split; [| discriminate]].
    + split; [auto |]. intros _. eexists. right; right; left. reflexivity.
    + intros _. split; [reflexivity | auto].
  - split; [| split; [discriminate | auto]].
    split; [| discriminate].
    intros (seen & [E | []]). discriminate.
Qed.

Lemma event_handler_notification_witness :
  interface (exec (dp83826EventHandler datasheet) irq_same_state)
    = interface irq_same_state /\
  count is_nicNotifyLinkChange
    (emitted (dp83826EventHandler datasheet) irq_same_state) = 1%nat /\
  interface (exec (dp83826EventHandler datasheet) irq_none)
    = interface irq_none /\
  count is_nicNotifyLinkChange
    (emitted (dp83826EventHandler datasheet) irq_none) = 0%nat.
Proof.
  split; [reflexivity | split; [| split]].
  - exact (proj1 (proj1 (proj2 (event_handler_notification datasheet
                                   irq_same_state)) eq_refl)).
  - exact (proj1 (proj2 (proj2 (event_handler_notification datasheet
                                   irq_none)) eq_refl)).
  - exact (proj2 (proj2 (proj2 (proj2 (event_handler_notification datasheet
                                          irq_none)) eq_refl))).
Defined.

(** C8: when the link change bit is set and the PHY status register has the
    link bit clear, the handler sets the link state to false and leaves the
    speed and the duplex mode as they were before the call; no other field of
    the interface changes either. *)
Theorem event_handler_link_down (H : Header) (m : Machine) :
  nonzero (Z.land (answer m 0) (DP83826_MISR1_LINK_INT H)) = true ->
  nonzero (Z.land (answer m 1) (DP83826_PHYSTS_LINK_STATUS H)) = false ->
  let m' := exec (dp83826EventHandler H) m in
  linkState (interface m') = false /\
  linkSpeed (interface m') = linkSpeed (interface m) /\
  duplexMode (interface m') = duplexMode (interface m) /\
  interface m' = set_linkState false (interface m).
Proof.
  intros Hint Hdown. cbv zeta. rewrite eventHandler_run. cbv zeta.
  rewrite Hint, Hdown. cbn. auto.
Qed.

Lemma event_handler_link_down_witness :
  linkState (interface (exec (dp83826EventHandler datasheet) irq_down))
    = false /\
  linkSpeed (interface (exec (dp83826EventHandler datasheet) irq_down))
    = NIC_LINK_SPEED_10MBPS /\
  duplexMode (interface (exec (dp83826EventHandler datasheet) irq_down))
    = NIC_HALF_DUPLEX_MODE /\
  interface (exec (dp83826EventHandler datasheet) irq_down)
    = set_linkState false up_10_half.
Proof.
  exact (event_handler_link_down datasheet irq_down eq_refl eq_refl).
Defined.

(** C9: every call of [updateMacConfig] the handler makes goes to the MAC
    collaborator of the interface and sees an interface whose speed and
    duplex mode are the ones just decoded from the PHY status register and
    whose link state is true, which is also the interface the handler leaves:
    the three assignments come before the call.  On the link up path there is
    such a call, after the two register reads and before the link change
    notification. *)
Theorem mac_config_sees_new_state (H : Header) (m : Machine) :
  let physts := answer m 1 in
  let speed :=
    if nonzero (Z.land physts (DP83826_PHYSTS_SPEED_STATUS H))
    then NIC_LINK_SPEED_10MBPS else NIC_LINK_SPEED_100MBPS in
  let duplex :=
    if nonzero (Z.land physts (DP83826_PHYSTS_DUPLEX_STATUS H))
    then NIC_FULL_DUPLEX_MODE else NIC_HALF_DUPLEX_MODE in
  let m' := exec (dp83826EventHandler H) m in
  (forall nic seen,
      In (EvUpdateMacConfig nic seen) (emitted (dp83826EventHandler H) m) ->
      nic = nicDriver (interface m) /\
      linkSpeed seen = speed /\ duplexMode seen = duplex /\
      linkState seen = true /\ seen = interface m') /\
  (nonzero (Z.land (answer m 0) (DP83826_MISR1_LINK_INT H)) = true ->
   nonzero (Z.land physts (DP83826_PHYSTS_LINK_STATUS H)) = true ->
   exists rd1 rd2 seen,
     emitted (dp83826EventHandler H) m =
       [rd1; rd2; EvUpdateMacConfig (nicDriver (interface m)) seen;
        EvNicNotifyLinkChange seen] /\
     is_read rd1 = true /\ is_read rd2 = true /\
     linkSpeed seen = speed /\ duplexMode seen = duplex /\
     linkState seen = true).
Proof.
  cbv zeta. rewrite eventHandler_emitted. cbv zeta.
  rewrite eventHandler_run. cbv zeta.
  destruct (nonzero (Z.land (answer m 0) (DP83826_MISR1_LINK_INT H)));
    [destruct (nonzero (Z.land (answer m 1) (DP83826_PHYSTS_LINK_STATUS H))) |];
    cbn [interface].
  - split.
    + intros nic seen [E | [E | [E | [E | []]]]]; try discriminate.
      injection E as <- <-. cbn. auto.
    + intros _ _. eexists _, _, _. split; [reflexivity |]. cbn. auto 6.
  - split; [| discriminate].
    intros nic seen [E | [E | [E | []]]]; discriminate.
  - split; [| discriminate].
    intros nic seen [E | []]; discriminate.
Qed.

Lemma mac_config_sees_new_state_witness :
  exists rd1 rd2 seen,
    emitted (dp83826EventHandler datasheet) irq_up_100_duplex_set =
      [rd1; rd2; EvUpdateMacConfig (NicDriverAt 0) seen;
       EvNicNotifyLinkChange seen] /\
    is_read rd1 = true /\ is_read rd2 = true /\
    linkSpeed seen = NIC_LINK_SPEED_100MBPS /\
    duplexMode seen = NIC_FULL_DUPLEX_MODE /\
    linkState seen = true.
Proof.
  exact (proj2 (mac_config_sees_new_state datasheet irq_up_100_duplex_set)
           eq_refl eq_refl).
Defined.

(** ** The timer handler *)

Lemma answer_next m m' k :
  device m' = device m -> reads m' = S (reads m) ->
  answer m' k = answer m (S k).
Proof.
  intros Hd Hr. unfold answer. rewrite Hd, Hr. now rewrite Nat.add_succ_r.
Qed.

(** One tick, path by path. *)
Lemma tick_run H m :
  dp83826Tick H m =
  match extIntDriver (interface m) with
  | Some _ => (tt, m)
  | None =>
      let itf := interface m in
      let differs := negb (Bool.eqb (linkBit H m 0) (linkState itf)) in
      (tt,
       mkMachine (if differs then set_phyEvent true itf else itf)
         (device m) (S (reads m))
         (trace m ++ statusReads H m 1
                  ++ (if differs then [EvOsSetEvent] else [])))
  end.
Proof.
  unfold dp83826Tick, bind, getInterface, linkBit, statusReads, regReads.
  destruct (extIntDriver (interface m)); [reflexivity |].
  rewrite readPhyReg_run. cbn [interface].
  destruct (nonzero (Z.land (answer m 0) (DP83826_BMSR_LINK_STATUS H))),
    (linkState (interface m)); unfold_monad; cbn; tidy_trace;
    try reflexivity.
Qed.

Lemma tick_emitted H m :
  extIntDriver (interface m) = None ->
  emitted (dp83826Tick H) m =
  statusReads H m 1 ++
  (if Bool.eqb (linkBit H m 0) (linkState (interface m))
   then [] else [EvOsSetEvent]).
Proof.
  intros Hext. unfold emitted, exec. rewrite tick_run, Hext. cbv zeta.
  destruct (Bool.eqb (linkBit H m 0) (linkState (interface m)));
    cbn [negb snd trace]; apply skipn_length_app.
Qed.

(** Ticks that all find the link bit equal to the stored link state only
    read the status register. *)
Lemma ticks_quiet H n : forall m,
  extIntDriver (interface m) = None ->
  (forall k, (k < n)%nat -> linkBit H m k = linkState (interface m)) ->
  ticks H n m =
  mkMachine (interface m) (device m) (n + reads m)
    (trace m ++ statusReads H m n).
Proof.
  induction n as [| n IH]; intros m Hext Hsame.
  - cbn. unfold statusReads, regReads. cbn. rewrite app_nil_r.
    now destruct m.
  - cbn [ticks]. unfold exec. rewrite tick_run, Hext. cbv zeta.
    rewrite (Hsame 0%nat) by lia. rewrite Bool.eqb_reflx. cbn [negb snd].
    rewrite app_nil_r. rewrite IH; cbn [interface device reads trace].
    + rewrite Nat.add_succ_r. f_equal. rewrite <- app_assoc. f_equal.
      unfold statusReads, regReads. cbn [seq map app]. f_equal.
      rewrite <- seq_shift, map_map. apply map_ext. intros k.
      cbn [interface]. f_equal. now apply answer_next.
    + exact Hext.
    + intros k Hk. unfold linkBit.
      rewrite (answer_next m) by reflexivity.
      apply (Hsame (S k)). lia.
Qed.

Lemma count_statusReads kind H m n :
  (forall via opcode phy address value,
      kind (EvReadPhyReg via opcode phy address value) = false) ->
  count kind (statusReads H m n) = 0%nat.
Proof.
  intros Hkind. unfold count, statusReads, regReads.
  induction (seq 0 n) as [| k l IH]; cbn; [reflexivity |].
  now rewrite Hkind.
Qed.

(** C2: on an interface without an external interrupt line driver, one tick
    signals the event of the stack if and only if the link bit read from the
    basic status register differs from the stored [linkState], in either
    direction, and in that case sets [phyEvent]; nothing else of the interface
    changes, in particular [linkState], [linkSpeed] and [duplexMode] keep
    their values, and when the bits are equal [phyEvent] keeps its value
    too.  So any number of ticks in a row that find the link bit
    equal to the stored link state leave the interface as it is and signal no
    event.  On an interface with an external interrupt line driver a tick
    does nothing at all. *)
Theorem tick_raises_event_iff_link_differs (H : Header) (m : Machine) :
  let link := linkBit H m 0 in
  let stored := linkState (interface m) in
  let m' := exec (dp83826Tick H) m in
  (extIntDriver (interface m) = None ->
   (In EvOsSetEvent (emitted (dp83826Tick H) m) <-> link <> stored) /\
   count is_osSetEvent (emitted (dp83826Tick H) m)
     = (if Bool.eqb link stored then 0 else 1)%nat /\
   interface m'
     = (if Bool.eqb link stored then interface m
        else set_phyEvent true (interface m)) /\
   linkState (interface m') = stored /\
   linkSpeed (interface m') = linkSpeed (interface m) /\
   duplexMode (interface m') = duplexMode (interface m) /\
   (link <> stored -> phyEvent (interface m') = true) /\
   (link = stored -> phyEvent (interface m') = phyEvent (interface m)) /\
   phyAddr (interface m') = phyAddr (interface m) /\
   smiDriver (interface m') = smiDriver (interface m) /\
   extIntDriver (interface m') = extIntDriver (interface m) /\
   nicDriver (interface m') = nicDriver (interface m)) /\
  (extIntDriver (interface m) = None ->
   forall n,
     (forall k, (k < n)%nat -> linkBit H m k = stored) ->
     interface (ticks H n m) = interface m /\
     count is_osSetEvent (emitted_between m (ticks H n m)) = 0%nat) /\
  (extIntDriver (interface m) <> None -> dp83826Tick H m = (tt, m)).
Proof.
  cbv zeta. split; [| split].
  - intros Hext. rewrite tick_emitted by exact Hext.
    unfold exec. rewrite tick_run, Hext. cbv zeta. cbn [snd interface].
    unfold statusReads, regReads. cbn [seq map app].
    destruct (linkBit H m 0), (linkState (interface m)) eqn:Hst; cbn;
      (split;
       [split
       | repeat apply conj; auto; try discriminate;
         intros E; now elim E]).
    + intros [E | []]; discriminate E.
    + intros E; now elim E.
    + discriminate.
    + intros _; right; left; reflexivity.
    + discriminate.
    + intros _; right; left; reflexivity.
    + intros [E | []]; discriminate E.
    + intros E; now elim E.
  - intros Hext n Hsame. rewrite ticks_quiet by assumption.
    cbn [interface]. split; [reflexivity |].
    unfold emitted_between. cbn [trace]. rewrite skipn_length_app.
    now apply count_statusReads.
  - intros Hext. rewrite tick_run.
    destruct (extIntDriver (interface m)); [reflexivity | congruence].
Qed.

Lemma tick_raises_event_iff_link_differs_witness :
  (phyEvent (interface poll_link_rose) = false /\
   count is_osSetEvent (emitted (dp83826Tick datasheet) poll_link_rose)
     = 1%nat /\
   phyEvent (interface (exec (dp83826Tick datasheet) poll_link_rose))
     = true /\
   linkState (interface (exec (dp83826Tick datasheet) poll_link_rose))
     = false) /\
  (phyEvent (interface (exec (dp83826Tick datasheet) poll_still_down))
     = false /\
   count is_osSetEvent (emitted (dp83826Tick datasheet) poll_still_down)
     = 0%nat) /\
  (interface (ticks datasheet 5 poll_still_down) = interface poll_still_down /\
   count is_osSetEvent
     (emitted_between poll_still_down (ticks datasheet 5 poll_still_down))
     = 0%nat) /\
  dp83826Tick datasheet irq_driven_link_rose = (tt, irq_driven_link_rose).
Proof.
  split; [| split; [| split]].
  - pose proof (proj1 (tick_raises_event_iff_link_differs datasheet
                         poll_link_rose) eq_refl)
      as (_ & Hc & _ & Hs & _ & _ & Hflag & _).
    split; [reflexivity | split; [exact Hc | split; [| exact Hs]]].
    apply Hflag. discriminate.
  - pose proof (proj1 (tick_raises_event_iff_link_differs datasheet
                         poll_still_down) eq_refl)
      as (_ & Hc & _ & _ & _ & _ & _ & Hkeep & _).
    split; [| exact Hc]. exact (Hkeep eq_refl).
  - exact (proj1 (proj2 (tick_raises_event_iff_link_differs datasheet
                           poll_still_down)) eq_refl 5%nat
             (fun k _ => eq_refl)).
  - apply (proj2 (proj2 (tick_raises_event_iff_link_differs datasheet
                           irq_driven_link_rose))).
    discriminate.
Defined.

(** The comparison is with the stored state, which a tick never updates: as
    long as the event handler has not run, every tick that still finds the
    link bit different from the stored state signals the event again. *)
Example tick_signals_until_handled :
  count is_osSetEvent
    (emitted_between poll_link_rose (ticks datasheet 3 poll_link_rose))
    = 3%nat.
Proof. reflexivity. Qed.

(** ** The initializer *)

Lemma bind_run {A B} (c : M A) (k : A -> M B) (m : Machine) :
  bind c k m = k (eval c m) (exec c m).
Proof. unfold bind, eval, exec. now destruct (c m). Qed.

Lemma regReads_S H m m1 address n :
  interface m1 = interface m -> device m1 = device m ->
  reads m1 = S (reads m) ->
  regReads H m address (S n)
  = regReads H m address 1 ++ regReads H m1 address n.
Proof.
  intros Hi Hd Hr. unfold regReads. cbn [seq map app]. f_equal.
  rewrite <- seq_shift, map_map. apply map_ext. intros k.
  rewrite Hi. f_equal. symmetry. now apply answer_next.
Qed.

(** The machine after one read of a register. *)
Lemma readPhyReg_exec H address m :
  exec (dp83826ReadPhyReg H address) m
  = mkMachine (interface m) (device m) (S (reads m))
      (trace m ++ regReads H m address 1).
Proof. unfold exec. now rewrite readPhyReg_run. Qed.

(** The initializer up to the reset write: the PHY address is settled first,
    and nothing is read. *)
Lemma initReset_run H m :
  let itf :=
    if phyAddr (interface m) >=? 32
    then set_phyAddr (DP83826_PHY_ADDR H) (interface m)
    else interface m in
  initReset H m =
  (tt,
   mkMachine itf (device m) (reads m)
     (trace m
      ++ (if TRACE_INFO_on H then [EvTraceInfo] else [])
      ++ match smiDriver itf with Some smi => [EvSmiInit smi] | None => [] end
      ++ match extIntDriver itf with
         | Some ext => [EvExtIntInit ext]
         | None => []
         end
      ++ [EvWritePhyReg (transport itf) (SMI_OPCODE_WRITE H) (phyAddr itf)
            (DP83826_BMCR H) (DP83826_BMCR_RESET H)])).
Proof.
  cbv zeta. destruct m as [[pa smi ext nic ls sp dm pe] dev n tr].
  unfold initReset, dp83826WritePhyReg, transport; unfold_monad.
  destruct (TRACE_INFO_on H); cbn; destruct (pa >=? 32), smi, ext; cbn;
    tidy_trace; reflexivity.
Qed.

Lemma resetBit_next H m m1 k :
  device m1 = device m -> reads m1 = S (reads m) ->
  resetBit H m1 k = resetBit H m (S k).
Proof. intros Hd Hr. unfold resetBit. now rewrite (answer_next m m1). Qed.

Lemma waitReset_step H fuel m :
  waitReset H (S fuel) m =
  if resetBit H m 0
  then waitReset H fuel (exec (dp83826ReadPhyReg H (DP83826_BMCR H)) m)
  else Some (tt, exec (dp83826ReadPhyReg H (DP83826_BMCR H)) m).
Proof.
  cbn [waitReset]. unfold exec, resetBit. rewrite readPhyReg_run.
  reflexivity.
Qed.

(** The loop exits at the first answer with the reset bit clear, after
    having read exactly the answers up to that one. *)
Lemma waitReset_first_clear H : forall k fuel m,
  firstClear H m k -> (k < fuel)%nat ->
  waitReset H fuel m = Some (tt, afterReset H m k).
Proof.
  induction k as [| k IH]; intros fuel m [Hset Hclear] Hfuel;
    (destruct fuel as [| fuel]; [lia |]); rewrite waitReset_step.
  - rewrite Hclear, readPhyReg_exec. reflexivity.
  - rewrite (Hset 0%nat) by lia. rewrite readPhyReg_exec.
    rewrite IH; [| | lia].
    + unfold afterReset, resetReads. cbn [interface device reads trace].
      rewrite Nat.add_succ_r, <- app_assoc.
      now rewrite <- (regReads_S H m).
    + split.
      * intros j Hj. rewrite (resetBit_next H m) by reflexivity.
        apply Hset. lia.
      * now rewrite (resetBit_next H m) by reflexivity.
Qed.

(** As long as the reset bit reads set, the loop goes on. *)
Lemma waitReset_starved H : forall fuel m,
  (forall j, (j < fuel)%nat -> resetBit H m j = true) ->
  waitReset H fuel m = None.
Proof.
  induction fuel as [| fuel IH]; intros m Hset; [reflexivity |].
  rewrite waitReset_step, (Hset 0%nat) by lia.
  apply IH. intros j Hj. rewrite (resetBit_next H m) by now rewrite readPhyReg_exec.
  apply Hset. lia.
Qed.

(** A loop that exited has met an answer with the reset bit clear. *)
Lemma waitReset_exit H : forall fuel m out,
  waitReset H fuel m = Some out ->
  exists k, (k < fuel)%nat /\ firstClear H m k.
Proof.
  induction fuel as [| fuel IH]; intros m out Hrun; [discriminate |].
  rewrite waitReset_step in Hrun.
  destruct (resetBit H m 0) eqn:Hbit.
  - apply IH in Hrun. destruct Hrun as (k & Hk & Hset & Hclear).
    rewrite readPhyReg_exec in Hset, Hclear.
    exists (S k). split; [lia |]. split.
    + intros [| j] Hj; [exact Hbit |].
      rewrite <- (resetBit_next H m (mkMachine (interface m) (device m)
                    (S (reads m)) (trace m ++ regReads H m (DP83826_BMCR H) 1)))
        by reflexivity.
      apply Hset. lia.
    + now rewrite (resetBit_next H m) in Hclear by reflexivity.
  - exists 0%nat. split; [lia |]. split; [intros j Hj; lia | exact Hbit].
Qed.

(** An answer with the reset bit clear has a first one before it. *)
Lemma firstClear_exists H m : forall k,
  resetBit H m k = false ->
  exists k0, (k0 <= k)%nat /\ firstClear H m k0.
Proof.
  induction k as [k IH] using lt_wf_ind. intros Hclear.
  destruct (forallb (fun j => resetBit H m j) (seq 0 k)) eqn:Hall.
  - exists k. split; [lia |]. split; [| exact Hclear].
    intros j Hj. rewrite forallb_forall in Hall.
    apply Hall. apply in_seq. lia.
  - assert (Hex : exists j, (j < k)%nat /\ resetBit H m j = false).
    { clear IH Hclear. induction k as [| k IHk]; [discriminate |].
      rewrite seq_S, forallb_app in Hall. cbn in Hall.
      destruct (forallb (fun j => resetBit H m j) (seq 0 k)).
      - exists k. split; [lia |]. cbn in Hall.
        now destruct (resetBit H m k).
      - destruct IHk as (j & Hj & Hb); [reflexivity |].
        exists j. split; [lia | exact Hb]. }
    destruct Hex as (j & Hj & Hb).
    destruct (IH j Hj Hb) as (k0 & Hk0 & Hfirst).
    exists k0. split; [lia | exact Hfirst].
Qed.

(** ** Routing of the register accesses *)

Section Routing.

Variable H : Header.

Lemma routed_same_route itf itf' e :
  transport itf' = transport itf -> phyAddr itf' = phyAddr itf ->
  routed H itf e -> routed H itf' e.
Proof.
  intros Ht Hp. destruct e; cbn; try exact (fun x => x);
    now rewrite Ht, Hp.
Qed.

Lemma routes_refl m : routes H m m.
Proof.
  repeat split. exists []. split; [now rewrite app_nil_r | constructor].
Qed.

Lemma routes_trans m1 m2 m3 : routes H m1 m2 -> routes H m2 m3 -> routes H m1 m3.
Proof.
  intros (Ht1 & Hp1 & evs1 & Htr1 & Hall1) (Ht2 & Hp2 & evs2 & Htr2 & Hall2).
  split; [congruence | split; [congruence |]].
  exists (evs1 ++ evs2). split.
  - now rewrite Htr2, Htr1, app_assoc.
  - apply Forall_app. split; [exact Hall1 |].
    eapply Forall_impl; [| exact Hall2].
    intros e. now apply routed_same_route.
Qed.

Lemma routes_ret A (a : A) : respects (routes H) (ret a).
Proof. intros m. apply routes_refl. Qed.

Lemma routes_getInterface : respects (routes H) getInterface.
Proof. intros m. apply routes_refl. Qed.

Lemma routes_bind A B (c : M A) (k : A -> M B) :
  respects (routes H) c -> (forall a, respects (routes H) (k a)) ->
  respects (routes H) (bind c k).
Proof.
  intros Hc Hk m. unfold exec. rewrite bind_run.
  eapply routes_trans; [apply Hc | apply Hk].
Qed.

Lemma routes_emit e : is_access e = false -> respects (routes H) (emit e).
Proof.
  intros He m. repeat split. exists [e]. split; [reflexivity |].
  constructor; [| constructor]. now destruct e.
Qed.

Lemma routes_assign f :
  (forall itf, transport (f itf) = transport itf) ->
  (forall itf, phyAddr (f itf) = phyAddr itf) ->
  respects (routes H) (assign f).
Proof.
  intros Ht Hp m. split; [apply Ht | split; [apply Hp |]].
  exists []. split; [cbn; now rewrite app_nil_r | constructor].
Qed.

Lemma routes_read address : respects (routes H) (dp83826ReadPhyReg H address).
Proof.
  intros m. rewrite readPhyReg_exec. repeat split.
  eexists. split; [reflexivity |]. repeat constructor.
Qed.

Lemma routes_write address data :
  respects (routes H) (dp83826WritePhyReg H address data).
Proof.
  intros m. unfold exec. rewrite writePhyReg_run. repeat split.
  eexists. split; [reflexivity |]. repeat constructor.
Qed.

(** One rule of the above, chosen by the shape of the code. *)
Ltac routes_rule :=
  lazymatch goal with
  | |- respects _ (bind _ _) => apply routes_bind; [| intros ?]
  | |- respects _ (ret _) => apply routes_ret
  | |- respects _ getInterface => apply routes_getInterface
  | |- respects _ (emit _) => apply routes_emit; reflexivity
  | |- respects _ (assign _) => apply routes_assign; reflexivity
  | |- respects _ (dp83826ReadPhyReg _ _) => apply routes_read
  | |- respects _ (dp83826WritePhyReg _ _ _) => apply routes_write
  | |- respects _ (match ?x with _ => _ end) => destruct x
  end.

Lemma routes_dumpFrom count : forall i, respects (routes H) (dumpFrom H count i).
Proof.
  induction count as [| count IH]; intros i; cbn [dumpFrom].
  - routes_rule.
  - routes_rule; [repeat routes_rule | apply IH].
Qed.

Lemma routes_dump : respects (routes H) (dp83826DumpPhyReg H).
Proof.
  unfold dp83826DumpPhyReg. routes_rule; [apply routes_dumpFrom |].
  repeat routes_rule.
Qed.

Lemma routes_initConfigure : respects (routes H) (initConfigure H).
Proof.
  unfold initConfigure, osSetEvent.
  routes_rule; [apply routes_dump |]. repeat routes_rule.
Qed.

Lemma routes_waitReset : forall fuel m out,
  waitReset H fuel m = Some out -> routes H m (snd out).
Proof.
  induction fuel as [| fuel IH]; intros m out Hrun; [discriminate |].
  rewrite waitReset_step in Hrun.
  destruct (resetBit H m 0).
  - eapply routes_trans; [apply routes_read | apply (IH _ _ Hrun)].
  - injection Hrun as <-. apply routes_read.
Qed.

Lemma routes_tick : respects (routes H) (dp83826Tick H).
Proof. unfold dp83826Tick, osSetEvent. repeat routes_rule. Qed.

Lemma routes_enableIrq : respects (routes H) dp83826EnableIrq.
Proof. unfold dp83826EnableIrq. repeat routes_rule. Qed.

Lemma routes_disableIrq : respects (routes H) dp83826DisableIrq.
Proof. unfold dp83826DisableIrq. repeat routes_rule. Qed.

Lemma routes_eventHandler : respects (routes H) (dp83826EventHandler H).
Proof.
  unfold dp83826EventHandler, updateMacConfig, nicNotifyLinkChange.
  repeat routes_rule.
Qed.

(** What a machine reached by routed calls has added to the trace. *)
Lemma routes_emitted m m' :
  routes H m m' -> Forall (routed H (interface m')) (emitted_between m m').
Proof.
  intros (Ht & Hp & evs & Htr & Hall). unfold emitted_between.
  rewrite Htr, skipn_length_app.
  eapply Forall_impl; [| exact Hall].
  intros e. now apply routed_same_route.
Qed.

Lemma routes_init fuel m out :
  dp83826Init H fuel m = Some out ->
  Forall (routed H (interface (snd out))) (emitted_between m (snd out)).
Proof.
  unfold dp83826Init. pose proof (initReset_run H m) as Hreset.
  cbv zeta in Hreset. rewrite Hreset.
  set (itf := if phyAddr (interface m) >=? 32 then _ else _) in *.
  set (m1 := mkMachine itf _ _ _).
  destruct (waitReset H fuel m1) as [[[] m2] |] eqn:Hwait; [| discriminate].
  intros [= <-].
  assert (Hr : routes H m1 (exec (initConfigure H) m2)).
  { eapply routes_trans; [apply (routes_waitReset _ _ _ Hwait) |].
    apply routes_initConfigure. }
  destruct Hr as (Ht & Hp & evs & Htr & Hall).
  unfold exec in *. unfold emitted_between. rewrite Htr.
  subst m1. cbn [trace interface] in *.
  rewrite <- app_assoc, skipn_length_app.
  eapply Forall_impl; [intros e; apply routed_same_route; eassumption |].
  repeat rewrite Forall_app. repeat split; try exact Hall.
  - destruct (TRACE_INFO_on H); repeat constructor.
  - destruct (smiDriver itf); repeat constructor.
  - destruct (extIntDriver itf); repeat constructor.
  - repeat constructor.
Qed.

(** Every register access of every entry point of the driver follows the
    routing rule. *)
Lemma driver_routes op m m' :
  dp83826PhyDriver H op m = Some m' ->
  Forall (routed H (interface m')) (emitted_between m m').
Proof.
  destruct op; cbn [dp83826PhyDriver].
  - destruct (dp83826Init H fuel m) as [out |] eqn:Hinit; [| discriminate].
    intros [= <-]. now apply (routes_init fuel).
  - intros [= <-]. apply routes_emitted, routes_tick.
  - intros [= <-]. apply routes_emitted, routes_enableIrq.
  - intros [= <-]. apply routes_emitted, routes_disableIrq.
  - intros [= <-]. apply routes_emitted, routes_eventHandler.
Qed.

(** With a serial management collaborator no routed access reaches the MAC
    collaborator, and without one none reaches a serial management
    collaborator. *)
Lemma routed_not_nic itf evs :
  smiDriver itf <> None -> Forall (routed H itf) evs ->
  count via_nic evs = 0%nat.
Proof.
  intros Hsmi Hall. unfold count.
  induction Hall as [| e evs He _ IH]; [reflexivity |]. cbn.
  destruct e; cbn; try exact IH;
    destruct He as (-> & _); unfold transport;
    destruct (smiDriver itf); [exact IH | congruence | exact IH | congruence].
Qed.

Lemma routed_not_smi itf evs :
  smiDriver itf = None -> Forall (routed H itf) evs ->
  count via_smi evs = 0%nat.
Proof.
  intros Hsmi Hall. unfold count.
  induction Hall as [| e evs He _ IH]; [reflexivity |]. cbn.
  destruct e; cbn; try exact IH;
    destruct He as (-> & _); unfold transport; rewrite Hsmi; exact IH.
Qed.

End Routing.

(** ** Runs of the initializer *)

Lemma init_unfold H fuel m :
  dp83826Init H fuel m =
  match waitReset H fuel (exec (initReset H) m) with
  | Some (_, m2) => Some (initConfigure H m2)
  | None => None
  end.
Proof. unfold dp83826Init, exec. now destruct (initReset H m). Qed.

(** Nothing is read before the loop: its reads get the coming answers. *)
Lemma initReset_answer H m k : answer (exec (initReset H) m) k = answer m k.
Proof.
  unfold exec. pose proof (initReset_run H m) as Hrun. cbv zeta in Hrun.
  now rewrite Hrun.
Qed.

Lemma initReset_firstClear H m k :
  firstClear H (exec (initReset H) m) k <-> firstClear H m k.
Proof.
  unfold firstClear, resetBit.
  split; intros [Hset Hclear]; (split; [intros j Hj; specialize (Hset j Hj) |]);
    now rewrite initReset_answer in *.
Qed.

Lemma init_first_clear H fuel m k :
  firstClear H m k -> (k < fuel)%nat ->
  dp83826Init H fuel m
  = Some (initConfigure H (afterReset H (exec (initReset H) m) k)).
Proof.
  intros Hfirst Hfuel. rewrite init_unfold.
  rewrite (waitReset_first_clear H k); [reflexivity | | exact Hfuel].
  now apply initReset_firstClear.
Qed.

Lemma init_starved H fuel m :
  (forall j, (j < fuel)%nat -> resetBit H m j = true) ->
  dp83826Init H fuel m = None.
Proof.
  intros Hset. rewrite init_unfold, waitReset_starved; [reflexivity |].
  intros j Hj. unfold resetBit. rewrite initReset_answer. now apply Hset.
Qed.

Lemma init_exit H fuel m out :
  dp83826Init H fuel m = Some out ->
  exists k, (k < fuel)%nat /\ firstClear H m k.
Proof.
  rewrite init_unfold.
  destruct (waitReset H fuel (exec (initReset H) m)) as [out' |] eqn:Hwait;
    [| discriminate].
  intros _. apply waitReset_exit in Hwait. destruct Hwait as (k & Hk & Hfirst).
  exists k. split; [exact Hk | now apply initReset_firstClear].
Qed.

(** The dump leaves the interface alone. *)
Lemma dumpFrom_interface H count : forall i m,
  interface (exec (dumpFrom H count i) m) = interface m.
Proof.
  induction count as [| count IH]; intros i m; [reflexivity |].
  cbn [dumpFrom]. unfold exec. rewrite bind_run.
  change (snd (dumpFrom H count (i + 1) ?x))
    with (exec (dumpFrom H count (i + 1)) x).
  rewrite IH. destruct (TRACE_DEBUG_on H); [| reflexivity].
  unfold exec. rewrite bind_run. unfold exec. rewrite readPhyReg_run.
  reflexivity.
Qed.

Lemma dump_interface H m :
  interface (exec (dp83826DumpPhyReg H) m) = interface m.
Proof.
  unfold dp83826DumpPhyReg, exec. rewrite bind_run.
  destruct (TRACE_DEBUG_on H); cbn [emit ret snd interface];
    apply dumpFrom_interface.
Qed.

(** The initializer after the loop: the two configuration writes, the event
    flag, the event of the stack, and the success code. *)
Lemma initConfigure_run H m :
  let d := exec (dp83826DumpPhyReg H) m in
  initConfigure H m =
  (NO_ERROR,
   mkMachine (set_phyEvent true (interface m)) (device d) (reads d)
     (trace d
      ++ [EvWritePhyReg (transport (interface m)) (SMI_OPCODE_WRITE H)
            (phyAddr (interface m)) (DP83826_PHYSCR H)
            (Z.lor (DP83826_PHYSCR_INT_EN H) (DP83826_PHYSCR_INT_OE H));
          EvWritePhyReg (transport (interface m)) (SMI_OPCODE_WRITE H)
            (phyAddr (interface m)) (DP83826_MISR1 H)
            (DP83826_MISR1_LINK_INT_EN H);
          EvOsSetEvent])).
Proof.
  cbv zeta. unfold initConfigure. rewrite bind_run.
  rewrite <- (dump_interface H m).
  generalize (exec (dp83826DumpPhyReg H) m) as d. intros d.
  rewrite bind_run. unfold exec at 1. rewrite writePhyReg_run. cbn [snd].
  rewrite bind_run. unfold exec at 1. rewrite writePhyReg_run. cbn [snd].
  unfold_monad. cbn. tidy_trace. reflexivity.
Qed.

(** Every entry point leaves a set event flag set. *)
Lemma op_keeps_phyEvent H op m m' :
  dp83826PhyDriver H op m = Some m' ->
  phyEvent (interface m) = true -> phyEvent (interface m') = true.
Proof.
  destruct op; cbn [dp83826PhyDriver].
  - rewrite init_unfold.
    destruct (waitReset H fuel (exec (initReset H) m)) as [[[] m2] |];
      [| discriminate].
    pose proof (initConfigure_run H m2) as Hrun. cbv zeta in Hrun.
    rewrite Hrun. intros [= <-] _. reflexivity.
  - intros [= <-] Hflag. unfold exec. rewrite tick_run.
    destruct (extIntDriver (interface m)); [exact Hflag |].
    cbv zeta. cbn [snd interface].
    destruct (negb _); [reflexivity | exact Hflag].
  - intros [= <-] Hflag. unfold dp83826EnableIrq; unfold_monad.
    now destruct (extIntDriver (interface m)).
  - intros [= <-] Hflag. unfold dp83826DisableIrq; unfold_monad.
    now destruct (extIntDriver (interface m)).
  - intros [= <-] Hflag. rewrite eventHandler_run. cbv zeta.
    destruct (nonzero (Z.land (answer m 0) (DP83826_MISR1_LINK_INT H)));
      [destruct (nonzero (Z.land (answer m 1) (DP83826_PHYSTS_LINK_STATUS H))) |];
      exact Hflag.
Qed.

Lemma calls_keep_phyEvent H ops : forall m m',
  calls H ops m = Some m' ->
  phyEvent (interface m) = true -> phyEvent (interface m') = true.
Proof.
  induction ops as [| op ops IH]; intros m m'; cbn [calls].
  - now intros [= <-].
  - destruct (dp83826PhyDriver H op m) as [m1 |] eqn:Hop; [| discriminate].
    intros Hrest Hflag. apply (IH m1 m' Hrest).
    now apply (op_keeps_phyEvent H op m).
Qed.

Lemma waitReset_interface H : forall fuel m out,
  waitReset H fuel m = Some out -> interface (snd out) = interface m.
Proof.
  induction fuel as [| fuel IH]; intros m out Hrun; [discriminate |].
  rewrite waitReset_step, readPhyReg_exec in Hrun.
  destruct (resetBit H m 0).
  - now rewrite (IH _ _ Hrun).
  - now injection Hrun as <-.
Qed.

(** What a run of the initializer that returns has done to the interface:
    the PHY address is the default one if it was undefined, the event flag
    is set, and nothing else has changed. *)
Lemma init_interface H fuel m r m' :
  dp83826Init H fuel m = Some (r, m') ->
  interface m' =
  set_phyEvent true
    (if phyAddr (interface m) >=? 32
     then set_phyAddr (DP83826_PHY_ADDR H) (interface m)
     else interface m).
Proof.
  rewrite init_unfold.
  destruct (waitReset H fuel (exec (initReset H) m)) as [[[] m2] |] eqn:Hwait;
    [| discriminate].
  pose proof (initConfigure_run H m2) as Hrun. cbv zeta in Hrun.
  rewrite Hrun. intros [= _ <-]. cbn [interface].
  apply waitReset_interface in Hwait. cbn [snd] in Hwait. rewrite Hwait.
  unfold exec. pose proof (initReset_run H m) as Hreset.
  cbv zeta in Hreset. now rewrite Hreset.
Qed.

Lemma op_keeps_smiDriver H op m m' :
  dp83826PhyDriver H op m = Some m' ->
  smiDriver (interface m') = smiDriver (interface m).
Proof.
  destruct op; cbn [dp83826PhyDriver].
  - destruct (dp83826Init H fuel m) as [[r m1] |] eqn:Hinit; [| discriminate].
    intros [= <-]. rewrite (init_interface _ _ _ _ _ Hinit).
    now destruct (phyAddr (interface m) >=? 32).
  - intros [= <-].
    destruct (routes_tick H m) as (Ht & _). revert Ht. unfold transport.
    destruct (smiDriver (interface (exec (dp83826Tick H) m))),
      (smiDriver (interface m)); congruence.
  - intros [= <-]. unfold dp83826EnableIrq; unfold_monad.
    now destruct (extIntDriver (interface m)).
  - intros [= <-]. unfold dp83826DisableIrq; unfold_monad.
    now destruct (extIntDriver (interface m)).
  - intros [= <-]. rewrite eventHandler_run. cbv zeta.
    destruct (nonzero (Z.land (answer m 0) (DP83826_MISR1_LINK_INT H)));
      [destruct (nonzero (Z.land (answer m 1) (DP83826_PHYSTS_LINK_STATUS H))) |];
      reflexivity.
Qed.

Lemma count_regReads H m address n :
  count is_read (regReads H m address n) = n.
Proof.
  unfold count, regReads.
  transitivity (length (seq 0 n)); [| apply length_seq].
  induction (seq 0 n) as [| j l IH]; [reflexivity |].
  cbn. now rewrite IH.
Qed.

(** ** The initializer, the routing and the event flag *)

(** C3: the values the control register returns to the reads that follow the
    reset write are the coming answers of the device, a sequence without
    end.  The initializer returns if and only if one of them has the reset
    bit clear.  When the [k]-th is the first such answer, the loop makes
    exactly the reads up to and including that one, [k + 1] reads of the
    control register, and the initializer goes on with the configuration;
    [k] reads are not enough, however large [k] is, and when no answer has
    the bit clear the initializer never returns: the loop has no bound. *)
Theorem reset_wait_reads_until_clear (H : Header) (m : Machine) :
  let m1 := exec (initReset H) m in
  (forall k, answer m1 k = answer m k) /\
  ((exists fuel out, dp83826Init H fuel m = Some out)
   <-> (exists k, resetBit H m k = false)) /\
  (forall k, firstClear H m k ->
   forall fuel,
     ((fuel <= k)%nat ->
      waitReset H fuel m1 = None /\ dp83826Init H fuel m = None) /\
     ((k < fuel)%nat ->
      waitReset H fuel m1 = Some (tt, afterReset H m1 k) /\
      emitted_between m1 (afterReset H m1 k) = resetReads H m1 (S k) /\
      count is_read (resetReads H m1 (S k)) = S k /\
      reads (afterReset H m1 k) = (S k + reads m)%nat /\
      dp83826Init H fuel m = Some (initConfigure H (afterReset H m1 k)))) /\
  ((forall k, resetBit H m k = true) ->
   forall fuel, dp83826Init H fuel m = None).
Proof.
  cbv zeta. split; [| split; [| split]].
  - apply initReset_answer.
  - split.
    + intros (fuel & out & Hrun). apply init_exit in Hrun.
      destruct Hrun as (k & _ & _ & Hclear). now exists k.
    + intros (k & Hclear).
      destruct (firstClear_exists H m k Hclear) as (k0 & _ & Hfirst).
      exists (S k0). eexists. apply init_first_clear; [exact Hfirst | lia].
  - intros k Hfirst fuel. split.
    + intros Hfuel.
      assert (Hset : forall j, (j < fuel)%nat -> resetBit H m j = true)
        by (intros j Hj; apply Hfirst; lia).
      split; [| now apply init_starved].
      apply waitReset_starved. intros j Hj. unfold resetBit.
      rewrite initReset_answer. now apply Hset.
    + intros Hfuel. split; [| split; [| split; [| split]]].
      * apply waitReset_first_clear; [| exact Hfuel].
        now apply initReset_firstClear.
      * unfold emitted_between, afterReset. cbn [trace].
        apply skipn_length_app.
      * apply count_regReads.
      * unfold afterReset. cbn [reads]. f_equal. unfold exec.
        pose proof (initReset_run H m) as Hrun. cbv zeta in Hrun.
        now rewrite Hrun.
      * now apply init_first_clear.
  - intros Hset fuel. apply init_starved. intros j _. apply Hset.
Qed.

Lemma reset_wait_reads_until_clear_witness :
  waitReset datasheet 3 (exec (initReset datasheet) reset_set_set_clear)
    = Some (tt, afterReset datasheet
                  (exec (initReset datasheet) reset_set_set_clear) 2) /\
  emitted_between (exec (initReset datasheet) reset_set_set_clear)
    (afterReset datasheet (exec (initReset datasheet) reset_set_set_clear) 2)
    = [EvReadPhyReg (ViaSmi (SmiDriverAt 1)) 2 0 0 0x8000;
       EvReadPhyReg (ViaSmi (SmiDriverAt 1)) 2 0 0 0x8000;
       EvReadPhyReg (ViaSmi (SmiDriverAt 1)) 2 0 0 0] /\
  count is_read
    (resetReads datasheet (exec (initReset datasheet) reset_set_set_clear) 3)
    = 3%nat /\
  reads (afterReset datasheet
           (exec (initReset datasheet) reset_set_set_clear) 2) = 3%nat /\
  dp83826Init datasheet 3 reset_set_set_clear
    = Some (initConfigure datasheet
              (afterReset datasheet
                 (exec (initReset datasheet) reset_set_set_clear) 2)).
Proof.
  assert (Hfirst : firstClear datasheet reset_set_set_clear 2).
  { split; [| reflexivity].
    intros [| [| j]] Hj; [reflexivity | reflexivity | lia]. }
  exact (proj2 (proj1 (proj2 (proj2 (reset_wait_reads_until_clear datasheet
                                       reset_set_set_clear)))
                  2%nat Hfirst 3%nat)
           (Nat.lt_succ_diag_r 2)).
Defined.

(** The loop of [reset_stuck] uses up any number of reads. *)
Example init_hangs_on_stuck_reset fuel :
  dp83826Init datasheet fuel reset_stuck = None.
Proof. apply init_starved. reflexivity. Qed.

(** C7: every run of the initializer that returns, returns [NO_ERROR], and
    there is such a run whenever one of the coming answers of the control
    register has the reset bit clear. *)
Theorem init_returns_success (H : Header) (m : Machine) :
  (forall fuel r m', dp83826Init H fuel m = Some (r, m') -> r = NO_ERROR) /\
  (forall k, resetBit H m k = false ->
   exists fuel m', dp83826Init H fuel m = Some (NO_ERROR, m')).
Proof.
  split.
  - intros fuel r m'. rewrite init_unfold.
    destruct (waitReset H fuel (exec (initReset H) m)) as [[[] m2] |];
      [| discriminate].
    pose proof (initConfigure_run H m2) as Hrun. cbv zeta in Hrun.
    rewrite Hrun. now intros [= <- _].
  - intros k Hclear.
    destruct (firstClear_exists H m k Hclear) as (k0 & _ & Hfirst).
    exists (S k0). eexists.
    rewrite (init_first_clear H (S k0) m k0 Hfirst) by lia.
    pose proof (initConfigure_run H
                  (afterReset H (exec (initReset H) m) k0)) as Hrun.
    cbv zeta in Hrun. rewrite Hrun. reflexivity.
Qed.

Lemma init_returns_success_witness :
  (exists fuel m',
      dp83826Init datasheet fuel reset_set_set_clear = Some (NO_ERROR, m')) /\
  fst (initConfigure datasheet
         (afterReset datasheet
            (exec (initReset datasheet) reset_set_set_clear) 2)) = NO_ERROR.
Proof.
  split.
  - exact (proj2 (init_returns_success datasheet reset_set_set_clear)
             2%nat eq_refl).
  - apply (proj1 (init_returns_success datasheet reset_set_set_clear) 3%nat _
             (snd (initConfigure datasheet
                     (afterReset datasheet
                        (exec (initReset datasheet) reset_set_set_clear) 2)))).
    vm_compute. reflexivity.
Defined.

(** C6: a register write or read makes exactly one call.  With a serial
    management interface driver the call goes to that driver, with the write
    or read opcode, the PHY address of the interface and the address of the
    register; without one it goes to the MAC driver of the interface with the
    same arguments.  And whatever entry point of the driver runs, every
    register access it makes follows this rule: none reaches the MAC driver
    when a serial management interface driver is there, and none reaches a
    serial management interface driver when there is none. *)
Theorem register_access_routing (H : Header) (m : Machine) :
  (forall smi address data,
      smiDriver (interface m) = Some smi ->
      emitted (dp83826WritePhyReg H address data) m
        = [EvWritePhyReg (ViaSmi smi) (SMI_OPCODE_WRITE H)
             (phyAddr (interface m)) address data] /\
      emitted (dp83826ReadPhyReg H address) m
        = [EvReadPhyReg (ViaSmi smi) (SMI_OPCODE_READ H)
             (phyAddr (interface m)) address (answer m 0)] /\
      eval (dp83826ReadPhyReg H address) m = answer m 0) /\
  (forall address data,
      smiDriver (interface m) = None ->
      emitted (dp83826WritePhyReg H address data) m
        = [EvWritePhyReg (ViaNic (nicDriver (interface m))) (SMI_OPCODE_WRITE H)
             (phyAddr (interface m)) address data] /\
      emitted (dp83826ReadPhyReg H address) m
        = [EvReadPhyReg (ViaNic (nicDriver (interface m))) (SMI_OPCODE_READ H)
             (phyAddr (interface m)) address (answer m 0)] /\
      eval (dp83826ReadPhyReg H address) m = answer m 0) /\
  (forall op m',
      dp83826PhyDriver H op m = Some m' ->
      Forall (routed H (interface m')) (emitted_between m m') /\
      (smiDriver (interface m) <> None ->
       count via_nic (emitted_between m m') = 0%nat) /\
      (smiDriver (interface m) = None ->
       count via_smi (emitted_between m m') = 0%nat)).
Proof.
  split; [| split].
  - intros smi address data Hsmi. unfold emitted, eval, exec.
    rewrite writePhyReg_run, readPhyReg_run. cbn [fst snd trace].
    rewrite !skipn_length_app. unfold transport. rewrite Hsmi. auto.
  - intros address data Hsmi. unfold emitted, eval, exec.
    rewrite writePhyReg_run, readPhyReg_run. cbn [fst snd trace].
    rewrite !skipn_length_app. unfold transport. rewrite Hsmi. auto.
  - intros op m' Hop. pose proof (driver_routes H op m m' Hop) as Hall.
    pose proof (op_keeps_smiDriver H op m m' Hop) as Hsame.
    split; [exact Hall | split]; intros Hsmi.
    + apply (routed_not_nic H (interface m')); [congruence | exact Hall].
    + apply (routed_not_smi H (interface m')); [congruence | exact Hall].
Qed.

Lemma register_access_routing_witness :
  (emitted (dp83826WritePhyReg datasheet 0x11 3) reset_set_set_clear
     = [EvWritePhyReg (ViaSmi (SmiDriverAt 1)) 1 40 0x11 3] /\
   emitted (dp83826ReadPhyReg datasheet 0x11) reset_set_set_clear
     = [EvReadPhyReg (ViaSmi (SmiDriverAt 1)) 2 40 0x11 0x8000] /\
   eval (dp83826ReadPhyReg datasheet 0x11) reset_set_set_clear = 0x8000) /\
  (emitted (dp83826WritePhyReg datasheet 0x12 0x20) irq_down
     = [EvWritePhyReg (ViaNic (NicDriverAt 0)) 1 0 0x12 0x20] /\
   emitted (dp83826ReadPhyReg datasheet 0x12) irq_down
     = [EvReadPhyReg (ViaNic (NicDriverAt 0)) 2 0 0x12 0x2000] /\
   eval (dp83826ReadPhyReg datasheet 0x12) irq_down = 0x2000) /\
  count via_nic
    (emitted_between reset_set_set_clear
       (snd (initConfigure datasheet
               (afterReset datasheet
                  (exec (initReset datasheet) reset_set_set_clear) 2))))
    = 0%nat /\
  count via_smi
    (emitted_between irq_down (exec (dp83826EventHandler datasheet) irq_down))
    = 0%nat.
Proof.
  split; [| split; [| split]].
  - exact (proj1 (register_access_routing datasheet reset_set_set_clear)
             (SmiDriverAt 1) 0x11 3 eq_refl).
  - exact (proj1 (proj2 (register_access_routing datasheet irq_down))
             0x12 0x20 eq_refl).
  - refine (proj1 (proj2 (proj2 (proj2 (register_access_routing datasheet
                                          reset_set_set_clear))
                            (OpInit 3) _ _)) _).
    + vm_compute. reflexivity.
    + discriminate.
  - exact (proj2 (proj2 (proj2 (proj2 (register_access_routing datasheet
                                         irq_down))
                           OpEventHandler _ eq_refl)) eq_refl).
Defined.

(** C10: no entry point of the driver clears the event flag.  A run of the
    initializer that returns leaves it set; a tick leaves it set or as it
    was; the event handler and the two interrupt gates leave it as it was.
    So a flag that is set stays set through any entry point, and through any
    sequence of calls of the driver. *)
Theorem phyEvent_never_cleared (H : Header) (m : Machine) :
  (forall fuel r m',
      dp83826Init H fuel m = Some (r, m') -> phyEvent (interface m') = true) /\
  (phyEvent (interface (exec (dp83826Tick H) m)) = true \/
   phyEvent (interface (exec (dp83826Tick H) m)) = phyEvent (interface m)) /\
  phyEvent (interface (exec (dp83826EventHandler H) m))
    = phyEvent (interface m) /\
  phyEvent (interface (exec dp83826EnableIrq m)) = phyEvent (interface m) /\
  phyEvent (interface (exec dp83826DisableIrq m)) = phyEvent (interface m) /\
  (forall op m',
      dp83826PhyDriver H op m = Some m' ->
      phyEvent (interface m) = true -> phyEvent (interface m') = true) /\
  (forall ops m',
      calls H ops m = Some m' ->
      phyEvent (interface m) = true -> phyEvent (interface m') = true).
Proof.
  repeat apply conj.
  - intros fuel r m' Hinit. now rewrite (init_interface _ _ _ _ _ Hinit).
  - unfold exec. rewrite tick_run.
    destruct (extIntDriver (interface m)); [now right |].
    cbv zeta. cbn [snd interface].
    destruct (negb _); [now left | now right].
  - rewrite eventHandler_run. cbv zeta.
    destruct (nonzero (Z.land (answer m 0) (DP83826_MISR1_LINK_INT H)));
      [destruct (nonzero (Z.land (answer m 1) (DP83826_PHYSTS_LINK_STATUS H))) |];
      reflexivity.
  - unfold dp83826EnableIrq; unfold_monad.
    now destruct (extIntDriver (interface m)).
  - unfold dp83826DisableIrq; unfold_monad.
    now destruct (extIntDriver (interface m)).
  - intros op m'. apply op_keeps_phyEvent.
  - intros ops m'. apply calls_keep_phyEvent.
Qed.

Lemma phyEvent_never_cleared_witness :
  phyEvent (interface (exec (dp83826EventHandler datasheet) event_pending))
    = true /\
  exists m',
    calls datasheet
      [OpEventHandler; OpTick; OpDisableIrq; OpInit 1; OpEnableIrq; OpTick]
      event_pending = Some m' /\
    phyEvent (interface m') = true.
Proof.
  split.
  - exact (proj1 (proj2 (proj2 (proj2 (proj2 (proj2
             (phyEvent_never_cleared datasheet event_pending))))))
             OpEventHandler _ eq_refl eq_refl).
  - destruct (calls datasheet
                [OpEventHandler; OpTick; OpDisableIrq; OpInit 1; OpEnableIrq;
                 OpTick] event_pending) as [m' |] eqn:Hcalls.
    + exists m'. split; [reflexivity |].
      exact (proj2 (proj2 (proj2 (proj2 (proj2 (proj2
               (phyEvent_never_cleared datasheet event_pending))))))
               _ m' Hcalls eq_refl).
    + vm_compute in Hcalls. discriminate Hcalls.
Defined.

(** ** Runs of the scenarios of the specification *)

(** An undefined PHY address (40) is replaced by the default one before the
    first register access; the reset bit read set, set, clear costs three
    reads of the control register, after which the interrupt pin and the
    link interrupt are configured and the stack is woken up. *)
Example init_run_set_set_clear :
  dp83826Init datasheet 3 reset_set_set_clear =
  Some (NO_ERROR,
        mkMachine
          (mkNetInterface 0 (Some (SmiDriverAt 1)) None (NicDriverAt 0)
             false NIC_LINK_SPEED_UNKNOWN NIC_UNKNOWN_DUPLEX_MODE true)
          (answers [0x8000; 0x8000; 0x0000]) 3
          [EvSmiInit (SmiDriverAt 1);
           EvWritePhyReg (ViaSmi (SmiDriverAt 1)) 1 0 0x00 0x8000;
           EvReadPhyReg (ViaSmi (SmiDriverAt 1)) 2 0 0x00 0x8000;
           EvReadPhyReg (ViaSmi (SmiDriverAt 1)) 2 0 0x00 0x8000;
           EvReadPhyReg (ViaSmi (SmiDriverAt 1)) 2 0 0x00 0x0000;
           EvWritePhyReg (ViaSmi (SmiDriverAt 1)) 1 0 0x11 0x0003;
           EvWritePhyReg (ViaSmi (SmiDriverAt 1)) 1 0 0x12 0x0020;
           EvOsSetEvent]).
Proof. vm_compute. reflexivity. Qed.

(** Two reads are not enough for that chip. *)
Example init_run_short_of_reads :
  dp83826Init datasheet 2 reset_set_set_clear = None.
Proof. vm_compute. reflexivity. Qed.

(** With the trace macros compiled in, the dump reads the 32 registers once
    each after the three reads of the loop, through the MAC driver as there
    is no serial management interface driver. *)
Example init_run_traced :
  option_map
    (fun out =>
       (fst out, reads (snd out), count is_read (trace (snd out)),
        count via_smi (trace (snd out)), length (trace (snd out))))
    (dp83826Init datasheet_traced 3 traced_reset)
  = Some (NO_ERROR, 35%nat, 35%nat, 0%nat, 74%nat).
Proof. vm_compute. reflexivity. Qed.

(** Link up, 100 Mbps, duplex bit set: the interface is up at 100 Mbps in
    full duplex, the MAC is reconfigured once and the stack notified once. *)
Example event_run_up_100_full :
  exec (dp83826EventHandler datasheet) irq_up_100_duplex_set =
  let up :=
    mkNetInterface 32 None None (NicDriverAt 0)
      true NIC_LINK_SPEED_100MBPS NIC_FULL_DUPLEX_MODE false in
  mkMachine up (answers [0x2000; 0x0005]) 2
    [EvReadPhyReg (ViaNic (NicDriverAt 0)) 2 32 0x12 0x2000;
     EvReadPhyReg (ViaNic (NicDriverAt 0)) 2 32 0x10 0x0005;
     EvUpdateMacConfig (NicDriverAt 0) up;
     EvNicNotifyLinkChange up].
Proof. vm_compute. reflexivity. Qed.

(** Link change bit clear: one read, and nothing else. *)
Example event_run_no_change :
  exec (dp83826EventHandler datasheet) irq_none =
  mkMachine up_10_half (answers [0x0020; 0x0005]) 1
    [EvReadPhyReg (ViaNic (NicDriverAt 0)) 2 0 0x12 0x0020].
Proof. vm_compute. reflexivity. Qed.

(** * Further properties of the driver *)

(** ** The register dump *)

Lemma flat_map_seq_S {A} (f : nat -> list A) n :
  flat_map f (seq 0 (S n)) = f 0%nat ++ flat_map (fun k => f (S k)) (seq 0 n).
Proof.
  cbn [seq flat_map]. f_equal. rewrite <- seq_shift.
  induction (seq 0 n) as [| k l IH]; [reflexivity |].
  cbn. now rewrite IH.
Qed.

Lemma count_app kind l l' :
  count kind (l ++ l') = (count kind l + count kind l')%nat.
Proof. unfold count. now rewrite filter_app, length_app. Qed.

Lemma dumpEvents_S H m m1 count i :
  interface m1 = interface m -> device m1 = device m ->
  reads m1 = S (reads m) ->
  dumpEvents H m (S count) i
  = dumpEvents H m 1 i ++ dumpEvents H m1 count (i + 1).
Proof.
  intros Hi Hd Hr. unfold dumpEvents. rewrite flat_map_seq_S.
  cbn [seq flat_map]. rewrite app_nil_r. f_equal.
  apply flat_map_ext. intros k. rewrite Hi, (answer_next m m1) by assumption.
  replace (i + 1 + Z.of_nat k) with (i + Z.of_nat (S k)) by lia.
  reflexivity.
Qed.

(** The loop of the dump, run. *)
Lemma dumpFrom_run H count : forall i m,
  exec (dumpFrom H count i) m =
  if TRACE_DEBUG_on H
  then mkMachine (interface m) (device m) (count + reads m)
         (trace m ++ dumpEvents H m count i)
  else m.
Proof.
  induction count as [| count IH]; intros i m.
  - cbn. unfold dumpEvents. cbn. rewrite app_nil_r.
    destruct (TRACE_DEBUG_on H); now destruct m.
  - cbn [dumpFrom]. unfold exec. rewrite bind_run.
    change (snd (dumpFrom H count (i + 1) ?x))
      with (exec (dumpFrom H count (i + 1)) x).
    rewrite IH. destruct (TRACE_DEBUG_on H) eqn:Hdebug; [| reflexivity].
    unfold exec. rewrite bind_run. unfold exec, eval.
    rewrite readPhyReg_run. cbn [fst snd emit interface device reads trace].
    rewrite Nat.add_succ_r. f_equal.
    set (m1 := mkMachine _ _ _ _).
    rewrite (dumpEvents_S H m m1) by reflexivity.
    unfold dumpEvents at 2. cbn [seq flat_map app]. rewrite Z.add_0_r.
    subst m1. cbn [trace]. rewrite <- !app_assoc. reflexivity.
Qed.

Lemma dump_run H m :
  exec (dp83826DumpPhyReg H) m =
  if TRACE_DEBUG_on H
  then mkMachine (interface m) (device m) (32 + reads m)
         (trace m ++ dumpEvents H m 32 0 ++ [EvTraceDebugEnd])
  else m.
Proof.
  unfold dp83826DumpPhyReg, exec. rewrite bind_run.
  change (snd (dumpFrom H 32 0 m)) with (exec (dumpFrom H 32 0) m).
  rewrite dumpFrom_run.
  destruct (TRACE_DEBUG_on H); [| reflexivity].
  cbn [emit snd interface device reads trace]. now rewrite <- app_assoc.
Qed.

Lemma readAddresses_app l l' :
  readAddresses (l ++ l') = readAddresses l ++ readAddresses l'.
Proof.
  induction l as [| e l IH]; [reflexivity |].
  destruct e; cbn; now rewrite ?IH.
Qed.

Lemma readAddresses_dumpEvents H m n i :
  readAddresses (dumpEvents H m n i)
  = map (fun k => i + Z.of_nat k) (seq 0 n).
Proof.
  unfold dumpEvents. induction (seq 0 n) as [| k l IH]; [reflexivity |].
  cbn. now rewrite IH.
Qed.

Lemma count_dumpEvents kind H m n i :
  (forall via opcode phy address value,
      kind (EvReadPhyReg via opcode phy address value) = false) ->
  (forall j value, kind (EvTraceDebugReg j value) = false) ->
  count kind (dumpEvents H m n i) = 0%nat.
Proof.
  intros Hread Htrace. unfold count, dumpEvents.
  induction (seq 0 n) as [| k l IH]; [reflexivity |].
  cbn. now rewrite Hread, Htrace.
Qed.

Lemma count_read_dumpEvents H m n i :
  count is_read (dumpEvents H m n i) = n.
Proof.
  unfold count, dumpEvents.
  transitivity (length (seq 0 n)); [| apply length_seq].
  induction (seq 0 n) as [| k l IH]; [reflexivity |].
  cbn. now rewrite IH.
Qed.

(** X1: with TRACE_DEBUG compiled in, the dump reads the 32 registers 0 to
    31 once each in ascending order, through the routed collaborator, traces
    each with the value just read, and writes no register; the 32 answers of
    the hardware are used up.  With TRACE_DEBUG compiled out the dump does
    nothing at all, not even a read.  The interface is unchanged either
    way. *)
Theorem dump_reads_every_register_once (H : Header) (m : Machine) :
  let m' := exec (dp83826DumpPhyReg H) m in
  interface m' = interface m /\
  (TRACE_DEBUG_on H = true ->
   emitted (dp83826DumpPhyReg H) m
     = dumpEvents H m 32 0 ++ [EvTraceDebugEnd] /\
   readAddresses (emitted (dp83826DumpPhyReg H) m)
     = map Z.of_nat (seq 0 32) /\
   count is_read (emitted (dp83826DumpPhyReg H) m) = 32%nat /\
   count is_write (emitted (dp83826DumpPhyReg H) m) = 0%nat /\
   reads m' = (32 + reads m)%nat) /\
  (TRACE_DEBUG_on H = false -> m' = m).
Proof.
  cbv zeta. unfold emitted. rewrite dump_run. split; [| split].
  - now destruct (TRACE_DEBUG_on H).
  - intros ->. cbn [trace reads]. rewrite skipn_length_app.
    split; [reflexivity |]. split; [| split; [| split]].
    + rewrite readAddresses_app, readAddresses_dumpEvents. cbn [readAddresses].
      rewrite app_nil_r. apply map_ext. intros k. apply Z.add_0_l.
    + rewrite count_app, count_read_dumpEvents. reflexivity.
    + rewrite count_app, count_dumpEvents by reflexivity. reflexivity.
    + reflexivity.
  - intros ->. reflexivity.
Qed.

Lemma dump_reads_every_register_once_witness :
  readAddresses (emitted (dp83826DumpPhyReg datasheet_traced) traced_reset)
    = [0; 1; 2; 3; 4; 5; 6; 7; 8; 9; 10; 11; 12; 13; 14; 15; 16; 17; 18; 19;
       20; 21; 22; 23; 24; 25; 26; 27; 28; 29; 30; 31] /\
  exec (dp83826DumpPhyReg datasheet) traced_reset = traced_reset.
Proof.
  split.
  - exact (proj1 (proj2 (proj1 (proj2 (dump_reads_every_register_once
                                         datasheet_traced traced_reset))
                           eq_refl))).
  - exact (proj2 (proj2 (dump_reads_every_register_once datasheet
                           traced_reset)) eq_refl).
Defined.

(** ** The initializer, call by call *)

(** A run of the initializer whose loop exits at the [k]-th answer. *)
Lemma init_run_full H fuel m k :
  firstClear H m k -> (k < fuel)%nat ->
  dp83826Init H fuel m =
  Some (NO_ERROR,
        mkMachine (set_phyEvent true (settleAddress H (interface m)))
          (device m)
          ((if TRACE_DEBUG_on H then 32 else 0) + (S k + reads m))
          (trace m ++ initCalls H m k)).
Proof.
  intros Hfirst Hfuel. rewrite (init_first_clear H fuel m k Hfirst Hfuel).
  pose proof (initConfigure_run H (afterReset H (exec (initReset H) m) k))
    as Hrun.
  cbv zeta in Hrun. rewrite Hrun. clear Hrun. rewrite dump_run.
  unfold afterReset, exec. pose proof (initReset_run H m) as Hreset.
  cbv zeta in Hreset. rewrite Hreset. clear Hreset.
  fold (settleAddress H (interface m)).
  unfold initCalls, resetReads, regReads, dumpEvents, answer.
  destruct (TRACE_DEBUG_on H); cbn [snd interface device reads trace];
    repeat rewrite <- app_assoc; reflexivity.
Qed.

(** X2: a run of the initializer that returns has made, in this order: the
    TRACE_INFO message if compiled in; the [init] of the serial management
    interface driver if there is one; the [init] of the external interrupt
    line driver if there is one; the write of the reset bit to the control
    register; the reads of the control register up to the first one whose
    reset bit is clear; the register dump if compiled in; the write of
    INT_EN | INT_OE to PHYSCR; the write of the link interrupt enable bit to
    MISR1; and last the event of the stack.  It has used up exactly the
    answers of these reads. *)
Theorem init_call_sequence (H : Header) (fuel : nat) (m : Machine)
    (r : error_t) (m' : Machine) :
  dp83826Init H fuel m = Some (r, m') ->
  exists k,
    (k < fuel)%nat /\ firstClear H m k /\
    emitted_between m m' = initCalls H m k /\
    reads m' = ((if TRACE_DEBUG_on H then 32 else 0) + (S k + reads m))%nat /\
    device m' = device m.
Proof.
  intros Hinit. destruct (init_exit H fuel m _ Hinit) as (k & Hk & Hfirst).
  exists k. rewrite (init_run_full H fuel m k Hfirst Hk) in Hinit.
  injection Hinit as _ <-. unfold emitted_between. cbn [trace reads device].
  rewrite skipn_length_app. auto.
Qed.

Lemma init_call_sequence_witness :
  exists k,
    (k < 3)%nat /\ firstClear datasheet reset_set_set_clear k /\
    emitted_between reset_set_set_clear after_init
      = initCalls datasheet reset_set_set_clear k /\
    reads after_init = (0 + (S k + reads reset_set_set_clear))%nat /\
    device after_init = device reset_set_set_clear.
Proof.
  exact (init_call_sequence datasheet 3 reset_set_set_clear NO_ERROR
           after_init init_run_set_set_clear).
Defined.

Lemma routed_accessPhy H itf e phy :
  routed H itf e -> accessPhy e = Some phy -> phy = phyAddr itf.
Proof.
  destruct e; cbn; try discriminate; intros (_ & _ & ->) [= <-]; reflexivity.
Qed.

(** X4: a run of the initializer that returns leaves the PHY address of the
    interface alone when it is below 32 and replaces it by DP83826_PHY_ADDR
    otherwise, and every register access of the run already carries the
    address so settled.  When DP83826_PHY_ADDR is itself in the range 0 to
    31, the address is in that range after the run, and a second run of the
    initializer does not change it again. *)
Theorem init_settles_phy_address (H : Header) (fuel : nat) (m : Machine)
    (r : error_t) (m' : Machine) :
  dp83826Init H fuel m = Some (r, m') ->
  phyAddr (interface m')
    = (if phyAddr (interface m) >=? 32 then DP83826_PHY_ADDR H
       else phyAddr (interface m)) /\
  Forall (fun e => forall phy,
              accessPhy e = Some phy -> phy = phyAddr (interface m'))
    (emitted_between m m') /\
  (0 <= DP83826_PHY_ADDR H < 32 -> 0 <= phyAddr (interface m) ->
   0 <= phyAddr (interface m') < 32) /\
  (0 <= DP83826_PHY_ADDR H < 32 ->
   forall fuel2 r2 m2,
     dp83826Init H fuel2 m' = Some (r2, m2) ->
     phyAddr (interface m2) = phyAddr (interface m')).
Proof.
  intros Hinit.
  assert (Haddr : phyAddr (interface m')
                  = (if phyAddr (interface m) >=? 32 then DP83826_PHY_ADDR H
                     else phyAddr (interface m))).
  { rewrite (init_interface _ _ _ _ _ Hinit).
    now destruct (phyAddr (interface m) >=? 32). }
  split; [exact Haddr | split; [| split]].
  - pose proof (driver_routes H (OpInit fuel) m m') as Hall.
    cbn [dp83826PhyDriver] in Hall. rewrite Hinit in Hall.
    specialize (Hall eq_refl).
    eapply Forall_impl; [| exact Hall].
    intros e He phy. now apply (routed_accessPhy H).
  - intros Hdef Hpos. rewrite Haddr.
    destruct (Z.geb_spec (phyAddr (interface m)) 32); lia.
  - intros Hdef fuel2 r2 m2 Hinit2.
    rewrite (init_interface _ _ _ _ _ Hinit2). cbn [phyAddr set_phyEvent].
    destruct (Z.geb_spec (phyAddr (interface m')) 32) as [Hge | Hlt];
      [| reflexivity].
    exfalso. rewrite Haddr in Hge.
    destruct (Z.geb_spec (phyAddr (interface m)) 32); lia.
Qed.

Lemma init_settles_phy_address_witness :
  phyAddr (interface after_init) = 0 /\
  Forall (fun e => forall phy, accessPhy e = Some phy -> phy = 0)
    (emitted_between reset_set_set_clear after_init) /\
  0 <= phyAddr (interface after_init) < 32.
Proof.
  pose proof (init_settles_phy_address datasheet 3 reset_set_set_clear
                NO_ERROR after_init init_run_set_set_clear) as (Ha & Hb & Hc & _).
  split; [exact Ha | split; [exact Hb |]].
  apply Hc; cbn; lia.
Defined.

(** ** Ticks in a row *)

Lemma existsb_seq_S (f : nat -> bool) n :
  existsb f (seq 0 (S n)) = f 0%nat || existsb (fun k => f (S k)) (seq 0 n).
Proof.
  cbn [seq existsb]. f_equal. rewrite <- seq_shift.
  induction (seq 0 n) as [| k l IH]; [reflexivity |].
  cbn. now rewrite IH.
Qed.

Lemma existsb_pointwise {A} (f g : A -> bool) l :
  (forall a, f a = g a) -> existsb f l = existsb g l.
Proof.
  intros Hfg. induction l as [| a l IH]; [reflexivity |].
  cbn. now rewrite Hfg, IH.
Qed.

Lemma linkBit_next H m m1 k :
  device m1 = device m -> reads m1 = S (reads m) ->
  linkBit H m1 k = linkBit H m (S k).
Proof. intros Hd Hr. unfold linkBit. now rewrite (answer_next m m1). Qed.

(** Any number of ticks on a polled interface, run. *)
Lemma ticks_run H n : forall m,
  extIntDriver (interface m) = None ->
  ticks H n m =
  mkMachine
    (if existsb (pollDiffers H m) (seq 0 n)
     then set_phyEvent true (interface m) else interface m)
    (device m) (n + reads m)
    (trace m ++ flat_map (pollEvents H m) (seq 0 n)).
Proof.
  induction n as [| n IH]; intros m Hext.
  - cbn. rewrite app_nil_r. now destruct m.
  - cbn [ticks]. unfold exec. rewrite tick_run, Hext. cbv zeta.
    fold (pollDiffers H m 0). cbn [snd].
    set (m1 := mkMachine _ _ _ _).
    assert (Hext1 : extIntDriver (interface m1) = None)
      by (subst m1; cbn; now destruct (pollDiffers H m 0)).
    assert (Hstate : linkState (interface m1) = linkState (interface m))
      by (subst m1; cbn; now destruct (pollDiffers H m 0)).
    assert (Hvia : transport (interface m1) = transport (interface m))
      by (subst m1; cbn; now destruct (pollDiffers H m 0)).
    assert (Hphy : phyAddr (interface m1) = phyAddr (interface m))
      by (subst m1; cbn; now destruct (pollDiffers H m 0)).
    assert (Hdiff : forall k, pollDiffers H m1 k = pollDiffers H m (S k)).
    { intros k. unfold pollDiffers.
      now rewrite Hstate, (linkBit_next H m m1) by reflexivity. }
    rewrite (IH m1 Hext1). rewrite existsb_seq_S, flat_map_seq_S.
    rewrite (existsb_pointwise _ _ _ Hdiff).
    assert (Hev : flat_map (pollEvents H m1) (seq 0 n)
                  = flat_map (fun k => pollEvents H m (S k)) (seq 0 n)).
    { apply flat_map_ext. intros k. unfold pollEvents.
      now rewrite Hvia, Hphy, Hdiff, (answer_next m m1) by reflexivity. }
    rewrite Hev. subst m1. cbn [interface device reads trace].
    rewrite Nat.add_succ_r. f_equal.
    + destruct (pollDiffers H m 0),
        (existsb (fun k => pollDiffers H m (S k)) (seq 0 n)); reflexivity.
    + rewrite <- !app_assoc. reflexivity.
Qed.

Lemma count_pollEvents_signal H m l :
  count is_osSetEvent (flat_map (pollEvents H m) l)
  = length (filter (pollDiffers H m) l).
Proof.
  unfold count. induction l as [| k l IH]; [reflexivity |].
  cbn. destruct (pollDiffers H m k); cbn; now rewrite IH.
Qed.

Lemma count_pollEvents_read H m l :
  count is_read (flat_map (pollEvents H m) l) = length l.
Proof.
  unfold count. induction l as [| k l IH]; [reflexivity |].
  cbn. destruct (pollDiffers H m k); cbn; now rewrite IH.
Qed.

Lemma filter_all {A} (f : A -> bool) l :
  (forall a, In a l -> f a = true) -> filter f l = l.
Proof.
  induction l as [| a l IH]; intros Hall; [reflexivity |].
  cbn. rewrite (Hall a) by now left.
  f_equal. apply IH. intros b Hb. apply Hall. now right.
Qed.

(** X5: on an interface without an external interrupt line driver, [n]
    ticks in a row with no event handler in between read the status register
    [n] times and signal the event of the stack once for every poll that
    found the link bit different from the stored link state, which they never
    update.  So as long as the polled bit differs from the stored state,
    every tick signals again: [n] ticks, [n] signals. *)
Theorem ticks_signal_each_differing_poll (H : Header) (n : nat) (m : Machine) :
  extIntDriver (interface m) = None ->
  count is_osSetEvent (emitted_between m (ticks H n m))
    = length (filter (pollDiffers H m) (seq 0 n)) /\
  count is_read (emitted_between m (ticks H n m)) = n /\
  linkState (interface (ticks H n m)) = linkState (interface m) /\
  linkSpeed (interface (ticks H n m)) = linkSpeed (interface m) /\
  duplexMode (interface (ticks H n m)) = duplexMode (interface m) /\
  ((forall k, (k < n)%nat -> linkBit H m k <> linkState (interface m)) ->
   count is_osSetEvent (emitted_between m (ticks H n m)) = n).
Proof.
  intros Hext. rewrite (ticks_run H n m Hext). unfold emitted_between.
  cbn [trace interface]. rewrite skipn_length_app.
  rewrite count_pollEvents_signal, count_pollEvents_read, length_seq.
  repeat split;
    try (destruct (existsb (pollDiffers H m) (seq 0 n)); reflexivity).
  intros Hall. rewrite filter_all; [apply length_seq |].
  intros k Hk. apply in_seq in Hk. unfold pollDiffers.
  specialize (Hall k (proj2 Hk)).
  destruct (linkBit H m k), (linkState (interface m)); try reflexivity;
    now elim Hall.
Qed.

Lemma ticks_signal_each_differing_poll_witness :
  count is_osSetEvent (emitted_between poll_flapping (ticks datasheet 4 poll_flapping))
    = 3%nat /\
  count is_read (emitted_between poll_flapping (ticks datasheet 4 poll_flapping))
    = 4%nat /\
  linkState (interface (ticks datasheet 4 poll_flapping)) = false.
Proof.
  pose proof (ticks_signal_each_differing_poll datasheet 4 poll_flapping
                eq_refl) as (Hs & Hr & Hl & _).
  exact (conj Hs (conj Hr Hl)).
Defined.

(** ** The handler and the next poll *)

(** X6: on an interface without an external interrupt line driver, once the
    event handler has found the link change bit set and stored the link bit
    of the PHY status register, a tick that polls the same link state in the
    basic status register signals nothing and leaves the interface as the
    handler left it.  When the handler found the link change bit clear it
    stored nothing, and the tick that follows signals exactly when the polled
    bit differs from the link state stored before the handler. *)
Theorem poll_after_event_handler (H : Header) (m : Machine) :
  let m1 := exec (dp83826EventHandler H) m in
  let m2 := exec (dp83826Tick H) m1 in
  extIntDriver (interface m) = None ->
  (nonzero (Z.land (answer m 0) (DP83826_MISR1_LINK_INT H)) = true ->
   nonzero (Z.land (answer m 2) (DP83826_BMSR_LINK_STATUS H))
     = nonzero (Z.land (answer m 1) (DP83826_PHYSTS_LINK_STATUS H)) ->
   count is_osSetEvent (emitted_between m1 m2) = 0%nat /\
   interface m2 = interface m1) /\
  (nonzero (Z.land (answer m 0) (DP83826_MISR1_LINK_INT H)) = false ->
   count is_osSetEvent (emitted_between m1 m2)
     = (if Bool.eqb (nonzero (Z.land (answer m 1) (DP83826_BMSR_LINK_STATUS H)))
                    (linkState (interface m))
        then 0 else 1)%nat /\
   linkState (interface m2) = linkState (interface m)).
Proof.
  cbv zeta. intros Hext. unfold emitted_between.
  change (trace (exec (dp83826Tick H) ?x))
    with (trace (exec (dp83826Tick H) x)).
  rewrite eventHandler_run. cbv zeta. split.
  - intros -> Hsame.
    destruct (nonzero (Z.land (answer m 1) (DP83826_PHYSTS_LINK_STATUS H)))
      eqn:Hup;
      unfold exec; rewrite tick_run; cbn [interface extIntDriver set_linkState
        set_duplexMode set_linkSpeed]; rewrite Hext; cbv zeta;
      unfold linkBit, answer in *; cbn [reads device interface Nat.add] in *;
      cbn [linkState set_linkState]; rewrite Hsame; cbn [Bool.eqb negb snd trace interface];
      rewrite skipn_length_app; now rewrite app_nil_r.
  - intros ->. unfold exec. rewrite tick_run. cbn [interface].
    rewrite Hext. cbv zeta. unfold linkBit, answer.
    cbn [reads device interface Nat.add snd trace].
    rewrite skipn_length_app.
    destruct (Bool.eqb _ _); cbn; auto.
Qed.

Lemma poll_after_event_handler_witness :
  count is_osSetEvent
    (emitted_between (exec (dp83826EventHandler datasheet) poll_after_handler)
       (exec (dp83826Tick datasheet)
          (exec (dp83826EventHandler datasheet) poll_after_handler)))
    = 0%nat /\
  count is_osSetEvent
    (emitted_between (exec (dp83826EventHandler datasheet) poll_link_rose)
       (exec (dp83826Tick datasheet)
          (exec (dp83826EventHandler datasheet) poll_link_rose)))
    = 1%nat.
Proof.
  split.
  - exact (proj1 (proj1 (poll_after_event_handler datasheet poll_after_handler
                           eq_refl) eq_refl eq_refl)).
  - exact (proj1 (proj2 (poll_after_event_handler datasheet poll_link_rose
                           eq_refl) eq_refl)).
Defined.

(** X7: handling the same status twice is handling it once, for the
    interface.  When the chip answers to a second run of the event handler
    the interrupt status and the PHY status it answered to the first, the
    second run leaves the interface as the first left it; it still notifies
    the stack again when the link change bit is set. *)
Theorem event_handler_idempotent (H : Header) (m : Machine) :
  let m1 := exec (dp83826EventHandler H) m in
  answer m1 0 = answer m 0 -> answer m1 1 = answer m 1 ->
  interface (exec (dp83826EventHandler H) m1) = interface m1 /\
  count is_nicNotifyLinkChange (emitted (dp83826EventHandler H) m1)
    = count is_nicNotifyLinkChange (emitted (dp83826EventHandler H) m).
Proof.
  cbv zeta. intros H0 H1.
  rewrite (eventHandler_emitted H (exec (dp83826EventHandler H) m)).
  rewrite (eventHandler_emitted H m).
  rewrite (eventHandler_run H (exec (dp83826EventHandler H) m)).
  cbv zeta. rewrite H0, H1. rewrite (eventHandler_run H m). cbv zeta.
  destruct (nonzero (Z.land (answer m 0) (DP83826_MISR1_LINK_INT H)));
    [destruct (nonzero (Z.land (answer m 1) (DP83826_PHYSTS_LINK_STATUS H))) |];
    split; reflexivity.
Qed.

Lemma event_handler_idempotent_witness :
  interface (exec (dp83826EventHandler datasheet)
               (exec (dp83826EventHandler datasheet) irq_twice))
    = interface (exec (dp83826EventHandler datasheet) irq_twice) /\
  count is_nicNotifyLinkChange
    (emitted (dp83826EventHandler datasheet)
       (exec (dp83826EventHandler datasheet) irq_twice))
    = count is_nicNotifyLinkChange
        (emitted (dp83826EventHandler datasheet) irq_twice).
Proof.
  exact (event_handler_idempotent datasheet irq_twice eq_refl eq_refl).
Defined.

(** ** The interrupt gates *)

Lemma enableIrq_run m :
  exec dp83826EnableIrq m =
  match extIntDriver (interface m) with
  | Some ext =>
      mkMachine (interface m) (device m) (reads m) (trace m ++ [EvEnableIrq ext])
  | None => m
  end.
Proof.
  unfold dp83826EnableIrq; unfold_monad.
  now destruct (extIntDriver (interface m)).
Qed.

Lemma disableIrq_run m :
  exec dp83826DisableIrq m =
  match extIntDriver (interface m) with
  | Some ext =>
      mkMachine (interface m) (device m) (reads m)
        (trace m ++ [EvDisableIrq ext])
  | None => m
  end.
Proof.
  unfold dp83826DisableIrq; unfold_monad.
  now destruct (extIntDriver (interface m)).
Qed.

(** X8: any sequence of calls of the two interrupt gates only talks to the
    external interrupt line driver: with such a driver each call makes the
    one call of its name, in the order of the sequence; without one the
    machine is left exactly as it was.  In both cases the interface is
    unchanged, no register is read or written and no answer of the hardware
    is used up, so the gates neither acknowledge an interrupt of the chip nor
    touch its interrupt enable bits. *)
Theorem irq_gates_compose (H : Header) (ops : list Operation) (m : Machine) :
  forallb is_gate ops = true ->
  calls H ops m =
  Some (mkMachine (interface m) (device m) (reads m)
          (trace m ++ match extIntDriver (interface m) with
                      | Some ext => flat_map (gateEvent ext) ops
                      | None => []
                      end)).
Proof.
  revert m. induction ops as [| op ops IH]; intros m Hgates.
  - cbn. destruct (extIntDriver (interface m)); rewrite app_nil_r;
      now destruct m.
  - cbn [forallb] in Hgates. apply andb_prop in Hgates.
    destruct Hgates as [Hop Hops].
    destruct op; try discriminate Hop; cbn [calls dp83826PhyDriver];
      rewrite ?enableIrq_run, ?disableIrq_run;
      destruct (extIntDriver (interface m)) as [ext |] eqn:Hext;
      rewrite (IH _ Hops); cbn [interface device reads trace];
      rewrite ?Hext; cbn [flat_map gateEvent app];
      rewrite <- ?app_assoc; reflexivity.
Qed.

Lemma irq_gates_compose_witness :
  calls datasheet [OpDisableIrq; OpEnableIrq; OpEnableIrq] irq_driven_link_rose
  = Some (mkMachine (interface irq_driven_link_rose)
            (device irq_driven_link_rose) 0
            [EvDisableIrq (ExtIntDriverAt 7); EvEnableIrq (ExtIntDriverAt 7);
             EvEnableIrq (ExtIntDriverAt 7)]) /\
  calls datasheet [OpDisableIrq; OpEnableIrq] poll_link_rose
  = Some poll_link_rose.
Proof.
  split.
  - exact (irq_gates_compose datasheet [OpDisableIrq; OpEnableIrq; OpEnableIrq]
             irq_driven_link_rose eq_refl).
  - exact (irq_gates_compose datasheet [OpDisableIrq; OpEnableIrq]
             poll_link_rose eq_refl).
Defined.

(** ** What each entry point may change *)

(** The interface an entry point leaves. *)
Lemma op_interface H op m m' :
  dp83826PhyDriver H op m = Some m' ->
  match op with
  | OpInit _ =>
      interface m' = set_phyEvent true (settleAddress H (interface m))
  | OpTick =>
      interface m' = interface m \/
      interface m' = set_phyEvent true (interface m)
  | OpEnableIrq | OpDisableIrq => interface m' = interface m
  | OpEventHandler =>
      interface m' = interface m \/
      interface m' = set_linkState false (interface m) \/
      exists speed duplex,
        speed <> NIC_LINK_SPEED_UNKNOWN /\
        duplex <> NIC_UNKNOWN_DUPLEX_MODE /\
        interface m'
        = set_linkState true
            (set_duplexMode duplex (set_linkSpeed speed (interface m)))
  end.
Proof.
  destruct op; cbn [dp83826PhyDriver].
  - destruct (dp83826Init H fuel m) as [[r m1] |] eqn:Hinit; [| discriminate].
    intros [= <-]. exact (init_interface _ _ _ _ _ Hinit).
  - intros [= <-]. unfold exec. rewrite tick_run.
    destruct (extIntDriver (interface m)); [now left |].
    cbv zeta. cbn [snd interface]. destruct (negb _); auto.
  - intros [= <-]. rewrite enableIrq_run.
    now destruct (extIntDriver (interface m)).
  - intros [= <-]. rewrite disableIrq_run.
    now destruct (extIntDriver (interface m)).
  - intros [= <-]. rewrite eventHandler_run. cbv zeta.
    destruct (nonzero (Z.land (answer m 0) (DP83826_MISR1_LINK_INT H)));
      [destruct (nonzero (Z.land (answer m 1) (DP83826_PHYSTS_LINK_STATUS H))) |];
      cbn [interface]; auto.
    right; right. eexists _, _. split; [| split; [| reflexivity]].
    + destruct (nonzero _); discriminate.
    + destruct (nonzero _); discriminate.
Qed.

(** X9: no entry point of the driver changes the three collaborators of the
    interface.  The link state, the speed and the duplex mode change in the
    event handler only; the PHY address changes in the initializer only. *)
Theorem fields_change_where_expected (H : Header) (op : Operation)
    (m m' : Machine) :
  dp83826PhyDriver H op m = Some m' ->
  smiDriver (interface m') = smiDriver (interface m) /\
  extIntDriver (interface m') = extIntDriver (interface m) /\
  nicDriver (interface m') = nicDriver (interface m) /\
  (op <> OpEventHandler ->
   linkState (interface m') = linkState (interface m) /\
   linkSpeed (interface m') = linkSpeed (interface m) /\
   duplexMode (interface m') = duplexMode (interface m)) /\
  ((forall fuel, op <> OpInit fuel) ->
   phyAddr (interface m') = phyAddr (interface m)).
Proof.
  intros Hop. pose proof (op_interface H op m m' Hop) as Hitf.
  destruct op.
  - rewrite Hitf. unfold settleAddress.
    destruct (phyAddr (interface m) >=? 32); cbn;
      (split; [| split; [| split; [| split]]]); auto;
      intros Hno; now elim (Hno fuel).
  - destruct Hitf as [-> | ->]; cbn;
      (split; [| split; [| split; [| split]]]); auto.
  - rewrite Hitf. auto 8.
  - rewrite Hitf. auto 8.
  - destruct Hitf as [-> | [-> | (speed & duplex & _ & _ & ->)]]; cbn;
      (split; [| split; [| split; [| split]]]); auto;
      intros Hno; now elim Hno.
Qed.

Lemma fields_change_where_expected_witness :
  (linkState (interface (exec (dp83826Tick datasheet) poll_link_rose))
     = linkState (interface poll_link_rose) /\
   linkSpeed (interface (exec (dp83826Tick datasheet) poll_link_rose))
     = linkSpeed (interface poll_link_rose) /\
   duplexMode (interface (exec (dp83826Tick datasheet) poll_link_rose))
     = duplexMode (interface poll_link_rose)) /\
  phyAddr (interface (exec (dp83826EventHandler datasheet) irq_down))
    = phyAddr (interface irq_down).
Proof.
  split.
  - refine (proj1 (proj2 (proj2 (proj2 (fields_change_where_expected datasheet
                      OpTick poll_link_rose _ eq_refl)))) _).
    discriminate.
  - refine (proj2 (proj2 (proj2 (proj2 (fields_change_where_expected datasheet
                      OpEventHandler irq_down _ eq_refl)))) _).
    discriminate.
Defined.

(** X10: an interface that is up knows its speed and its duplex mode, and
    every entry point of the driver keeps it so, whatever the hardware
    answers: the handler sets both whenever it sets the link state to true,
    and nothing else touches the three fields.  This holds through any
    sequence of calls of the driver. *)
Theorem up_interface_knows_speed_and_duplex (H : Header)
    (ops : list Operation) (m m' : Machine) :
  calls H ops m = Some m' ->
  known_when_up (interface m) -> known_when_up (interface m').
Proof.
  revert m. induction ops as [| op ops IH]; intros m; cbn [calls].
  - now intros [= <-].
  - destruct (dp83826PhyDriver H op m) as [m1 |] eqn:Hop; [| discriminate].
    intros Hrest Hknown. apply (IH m1 Hrest). clear IH Hrest.
    pose proof (op_interface H op m m1 Hop) as Hitf. unfold known_when_up in *.
    destruct op.
    + rewrite Hitf. unfold settleAddress.
      destruct (phyAddr (interface m) >=? 32); exact Hknown.
    + destruct Hitf as [-> | ->]; exact Hknown.
    + now rewrite Hitf.
    + now rewrite Hitf.
    + destruct Hitf as [-> | [-> | (speed & duplex & Hs & Hd & ->)]]; cbn.
      * exact Hknown.
      * discriminate.
      * auto.
Qed.

Lemma up_interface_knows_speed_and_duplex_witness :
  exists m1 m',
    calls datasheet [OpInit 1; OpEventHandler] boot_then_link_up = Some m1 /\
    linkState (interface m1) = true /\
    linkSpeed (interface m1) = NIC_LINK_SPEED_10MBPS /\
    duplexMode (interface m1) = NIC_HALF_DUPLEX_MODE /\
    calls datasheet [OpInit 1; OpEventHandler; OpTick; OpEventHandler]
      boot_then_link_up = Some m' /\
    count is_updateMacConfig (trace m') = 2%nat /\
    linkState (interface m') = true /\
    linkSpeed (interface m') = NIC_LINK_SPEED_100MBPS /\
    duplexMode (interface m') = NIC_FULL_DUPLEX_MODE /\
    known_when_up (interface m1) /\
    known_when_up (interface m').
Proof.
  destruct (calls datasheet [OpInit 1; OpEventHandler] boot_then_link_up)
    as [m1 |] eqn:Hfirst;
    [| vm_compute in Hfirst; discriminate Hfirst].
  destruct (calls datasheet [OpInit 1; OpEventHandler; OpTick; OpEventHandler]
              boot_then_link_up) as [m' |] eqn:Hcalls;
    [| vm_compute in Hcalls; discriminate Hcalls].
  assert (Hdown : known_when_up (interface boot_then_link_up))
    by (intros Hup; discriminate Hup).
  pose proof (up_interface_knows_speed_and_duplex datasheet _
                boot_then_link_up m1 Hfirst Hdown) as Hknown1.
  pose proof (up_interface_knows_speed_and_duplex datasheet _
                boot_then_link_up m' Hcalls Hdown) as Hknown.
  exists m1, m'.
  vm_compute in Hfirst. injection Hfirst as <-.
  vm_compute in Hcalls. injection Hcalls as <-.
  repeat apply conj; try reflexivity; assumption.
Defined.

(** ** Register writes and signals, entry point by entry point *)

Lemma skipn_length_self {A} (l : list A) : skipn (length l) l = [].
Proof. induction l; cbn; auto. Qed.

Lemma registerWrites_app l l' :
  registerWrites (l ++ l') = registerWrites l ++ registerWrites l'.
Proof.
  induction l as [| e l IH]; [reflexivity |].
  destruct e; cbn; now rewrite ?IH.
Qed.

Lemma registerWrites_regReads H m address n :
  registerWrites (regReads H m address n) = [].
Proof.
  unfold regReads. induction (seq 0 n) as [| k l IH]; [reflexivity |].
  exact IH.
Qed.

Lemma registerWrites_dumpEvents H m n i :
  registerWrites (dumpEvents H m n i) = [].
Proof.
  unfold dumpEvents. induction (seq 0 n) as [| k l IH]; [reflexivity |].
  exact IH.
Qed.

Lemma registerWrites_initCalls H m k :
  registerWrites (initCalls H m k) =
  [(DP83826_BMCR H, DP83826_BMCR_RESET H);
   (DP83826_PHYSCR H,
    Z.lor (DP83826_PHYSCR_INT_EN H) (DP83826_PHYSCR_INT_OE H));
   (DP83826_MISR1 H, DP83826_MISR1_LINK_INT_EN H)].
Proof.
  unfold initCalls. cbv zeta.
  repeat rewrite registerWrites_app. rewrite registerWrites_regReads.
  destruct (TRACE_INFO_on H), (smiDriver (settleAddress H (interface m))),
    (extIntDriver (settleAddress H (interface m))), (TRACE_DEBUG_on H);
    rewrite ?registerWrites_app, ?registerWrites_dumpEvents; reflexivity.
Qed.

(** The calls of a run of the initializer that returned. *)
Lemma init_emitted H fuel m out :
  dp83826Init H fuel m = Some out ->
  exists k, firstClear H m k /\ emitted_between m (snd out) = initCalls H m k.
Proof.
  intros Hinit. destruct (init_exit H fuel m _ Hinit) as (k & Hk & Hfirst).
  exists k. split; [exact Hfirst |].
  rewrite (init_run_full H fuel m k Hfirst Hk) in Hinit.
  injection Hinit as <-. unfold emitted_between. cbn [snd trace].
  apply skipn_length_app.
Qed.

(** X11: the initializer is the only entry point that writes registers of
    the chip, and a run that returns writes exactly three, in this order:
    the reset bit to the control register, INT_EN | INT_OE to PHYSCR, and
    the link interrupt enable bit to MISR1.  The tick, the two interrupt
    gates and the event handler write no register. *)
Theorem registers_written_by_init_only (H : Header) (op : Operation)
    (m m' : Machine) :
  dp83826PhyDriver H op m = Some m' ->
  registerWrites (emitted_between m m') =
  match op with
  | OpInit _ =>
      [(DP83826_BMCR H, DP83826_BMCR_RESET H);
       (DP83826_PHYSCR H,
        Z.lor (DP83826_PHYSCR_INT_EN H) (DP83826_PHYSCR_INT_OE H));
       (DP83826_MISR1 H, DP83826_MISR1_LINK_INT_EN H)]
  | _ => []
  end.
Proof.
  destruct op; cbn [dp83826PhyDriver].
  - destruct (dp83826Init H fuel m) as [out |] eqn:Hinit; [| discriminate].
    intros [= <-]. destruct (init_emitted H fuel m out Hinit) as (k & _ & ->).
    apply registerWrites_initCalls.
  - intros [= <-]. unfold emitted_between, exec. rewrite tick_run.
    destruct (extIntDriver (interface m));
      [cbn [snd]; now rewrite skipn_length_self |].
    cbv zeta. cbn [snd trace]. rewrite skipn_length_app.
    now destruct (negb _).
  - intros [= <-]. unfold emitted_between. rewrite enableIrq_run.
    destruct (extIntDriver (interface m));
      [cbn [trace]; now rewrite skipn_length_app
      | now rewrite skipn_length_self].
  - intros [= <-]. unfold emitted_between. rewrite disableIrq_run.
    destruct (extIntDriver (interface m));
      [cbn [trace]; now rewrite skipn_length_app
      | now rewrite skipn_length_self].
  - intros [= <-].
    change (emitted_between m (exec (dp83826EventHandler H) m))
      with (emitted (dp83826EventHandler H) m).
    rewrite eventHandler_emitted. cbv zeta.
    destruct (nonzero (Z.land (answer m 0) (DP83826_MISR1_LINK_INT H)));
      [destruct (nonzero (Z.land (answer m 1) (DP83826_PHYSTS_LINK_STATUS H))) |];
      reflexivity.
Qed.

Lemma registers_written_by_init_only_witness :
  registerWrites (emitted_between reset_set_set_clear after_init)
    = [(0x00, 0x8000); (0x11, 0x0003); (0x12, 0x0020)] /\
  registerWrites
    (emitted_between irq_twice (exec (dp83826EventHandler datasheet) irq_twice))
    = [].
Proof.
  split.
  - refine (registers_written_by_init_only datasheet (OpInit 3)
              reset_set_set_clear after_init _).
    cbn [dp83826PhyDriver]. now rewrite init_run_set_set_clear.
  - exact (registers_written_by_init_only datasheet OpEventHandler irq_twice
             _ eq_refl).
Defined.

Lemma count_regReads_none kind H m address n :
  (forall via opcode phy a value,
      kind (EvReadPhyReg via opcode phy a value) = false) ->
  count kind (regReads H m address n) = 0%nat.
Proof.
  intros Hkind. unfold count, regReads.
  induction (seq 0 n) as [| k l IH]; cbn; [reflexivity |].
  now rewrite Hkind.
Qed.

Lemma count_osSetEvent_initCalls H m k :
  count is_osSetEvent (initCalls H m k) = 1%nat.
Proof.
  unfold initCalls. cbv zeta. repeat rewrite count_app.
  rewrite count_regReads_none by reflexivity.
  destruct (TRACE_INFO_on H), (smiDriver (settleAddress H (interface m))),
    (extIntDriver (settleAddress H (interface m))), (TRACE_DEBUG_on H);
    rewrite ?count_app, ?count_dumpEvents by reflexivity; reflexivity.
Qed.

Lemma in_count_osSetEvent l :
  In EvOsSetEvent l -> count is_osSetEvent l <> 0%nat.
Proof.
  unfold count. induction l as [| e l IH]; intros Hin; [destruct Hin |].
  destruct Hin as [-> | Hin]; [discriminate |].
  cbn. destruct (is_osSetEvent e); [discriminate | now apply IH].
Qed.

(** X12: an entry point signals the event of the stack at most once, and
    whenever it does, it leaves the event flag of the interface set, so the
    stack that wakes up finds the flag.  A run of the initializer that
    returns always signals, exactly once; the event handler and the two
    interrupt gates never signal. *)
Theorem stack_event_comes_with_flag (H : Header) (op : Operation)
    (m m' : Machine) :
  dp83826PhyDriver H op m = Some m' ->
  (count is_osSetEvent (emitted_between m m') <= 1)%nat /\
  (In EvOsSetEvent (emitted_between m m') -> phyEvent (interface m') = true) /\
  match op with
  | OpInit _ => count is_osSetEvent (emitted_between m m') = 1%nat
  | OpTick => True
  | _ => count is_osSetEvent (emitted_between m m') = 0%nat
  end.
Proof.
  intros Hop.
  assert (Hcases :
    (count is_osSetEvent (emitted_between m m') = 1%nat /\
     phyEvent (interface m') = true /\ is_gate op = false /\
     op <> OpEventHandler) \/
    (count is_osSetEvent (emitted_between m m') = 0%nat /\
     forall fuel, op <> OpInit fuel)).
  { destruct op; cbn [dp83826PhyDriver] in Hop.
    - left. destruct (dp83826Init H fuel m) as [[r m1] |] eqn:Hinit;
        [| discriminate].
      injection Hop as <-.
      destruct (init_emitted H fuel m _ Hinit) as (k & _ & Hcalls).
      cbn [snd] in Hcalls. rewrite Hcalls, count_osSetEvent_initCalls.
      rewrite (init_interface _ _ _ _ _ Hinit).
      repeat split; discriminate.
    - injection Hop as <-. unfold emitted_between, exec. rewrite tick_run.
      destruct (extIntDriver (interface m)).
      + right. cbn [snd]. rewrite skipn_length_self.
        split; [reflexivity | discriminate].
      + cbv zeta. cbn [snd trace interface]. rewrite skipn_length_app.
        destruct (negb _); [left | right]; cbn;
          repeat split; discriminate.
    - right. injection Hop as <-. unfold emitted_between.
      rewrite enableIrq_run. split; [| discriminate].
      destruct (extIntDriver (interface m));
        [cbn [trace]; now rewrite skipn_length_app
        | now rewrite skipn_length_self].
    - right. injection Hop as <-. unfold emitted_between.
      rewrite disableIrq_run. split; [| discriminate].
      destruct (extIntDriver (interface m));
        [cbn [trace]; now rewrite skipn_length_app
        | now rewrite skipn_length_self].
    - right. injection Hop as <-. split; [| discriminate].
      change (emitted_between m (exec (dp83826EventHandler H) m))
        with (emitted (dp83826EventHandler H) m).
      rewrite eventHandler_emitted. cbv zeta.
      destruct (nonzero (Z.land (answer m 0) (DP83826_MISR1_LINK_INT H)));
        [destruct (nonzero (Z.land (answer m 1)
                              (DP83826_PHYSTS_LINK_STATUS H))) |];
        reflexivity. }
  destruct Hcases as [(Hone & Hflag & Hgate & Hhandler) | (Hzero & Hinit)].
  - rewrite Hone. split; [lia | split; [auto |]].
    destruct op; try exact I; try reflexivity; try discriminate Hgate.
    now elim Hhandler.
  - rewrite Hzero. split; [lia | split].
    + intros Hin. apply in_count_osSetEvent in Hin. now elim Hin.
    + destruct op; try exact I; try reflexivity. now elim (Hinit fuel).
Qed.

Lemma stack_event_comes_with_flag_witness :
  count is_osSetEvent (emitted_between reset_set_set_clear after_init)
    = 1%nat /\
  phyEvent (interface after_init) = true.
Proof.
  assert (Hop : dp83826PhyDriver datasheet (OpInit 3) reset_set_set_clear
                = Some after_init)
    by (cbn [dp83826PhyDriver]; now rewrite init_run_set_set_clear).
  pose proof (stack_event_comes_with_flag datasheet (OpInit 3)
                reset_set_set_clear after_init Hop) as (_ & Hflag & Hone).
  split; [exact Hone |]. apply Hflag.
  vm_compute. auto 10.
Defined.

Lemma readAddresses_regReads H m address n :
  readAddresses (regReads H m address n) = repeat address n.
Proof.
  unfold regReads.
  transitivity (repeat address (length (seq 0 n)));
    [| now rewrite length_seq].
  induction (seq 0 n) as [| k l IH]; [reflexivity |].
  cbn. now rewrite IH.
Qed.

Lemma readAddresses_initCalls H m k :
  readAddresses (initCalls H m k) =
  repeat (DP83826_BMCR H) (S k)
  ++ (if TRACE_DEBUG_on H then map Z.of_nat (seq 0 32) else []).
Proof.
  unfold initCalls. cbv zeta.
  repeat rewrite readAddresses_app. rewrite readAddresses_regReads.
  destruct (TRACE_INFO_on H), (smiDriver (settleAddress H (interface m))),
    (extIntDriver (settleAddress H (interface m))), (TRACE_DEBUG_on H);
    rewrite ?readAddresses_app, ?readAddresses_dumpEvents;
    cbn [readAddresses app]; rewrite ?app_nil_r; reflexivity.
Qed.

(** X13: the registers each entry point reads, in the order of the reads.
    A run of the initializer that returns reads the control register until
    the reset bit is clear, then, if the dump is compiled in, the registers 0
    to 31.  A tick reads the basic status register once on a polled
    interface and nothing on an interface with an external interrupt line
    driver.  The event handler always reads the interrupt status register
    first, which acknowledges the interrupt even when no link change is
    reported, and reads the PHY status register after it exactly when the
    link change bit is set.  The interrupt gates read nothing. *)
Theorem registers_read_by_entry_point (H : Header) (op : Operation)
    (m m' : Machine) :
  dp83826PhyDriver H op m = Some m' ->
  match op with
  | OpInit _ =>
      exists k,
        firstClear H m k /\
        readAddresses (emitted_between m m')
        = repeat (DP83826_BMCR H) (S k)
          ++ (if TRACE_DEBUG_on H then map Z.of_nat (seq 0 32) else [])
  | OpTick =>
      readAddresses (emitted_between m m')
      = match extIntDriver (interface m) with
        | Some _ => []
        | None => [DP83826_BMSR H]
        end
  | OpEnableIrq | OpDisableIrq => readAddresses (emitted_between m m') = []
  | OpEventHandler =>
      readAddresses (emitted_between m m')
      = DP83826_MISR1 H
        :: (if nonzero (Z.land (answer m 0) (DP83826_MISR1_LINK_INT H))
            then [DP83826_PHYSTS H] else [])
  end.
Proof.
  destruct op; cbn [dp83826PhyDriver].
  - destruct (dp83826Init H fuel m) as [out |] eqn:Hinit; [| discriminate].
    intros [= <-].
    destruct (init_emitted H fuel m out Hinit) as (k & Hfirst & ->).
    exists k. split; [exact Hfirst | apply readAddresses_initCalls].
  - intros [= <-]. unfold emitted_between, exec. rewrite tick_run.
    destruct (extIntDriver (interface m));
      [cbn [snd]; now rewrite skipn_length_self |].
    cbv zeta. cbn [snd trace]. rewrite skipn_length_app.
    now destruct (negb _).
  - intros [= <-]. unfold emitted_between. rewrite enableIrq_run.
    destruct (extIntDriver (interface m));
      [cbn [trace]; now rewrite skipn_length_app
      | now rewrite skipn_length_self].
  - intros [= <-]. unfold emitted_between. rewrite disableIrq_run.
    destruct (extIntDriver (interface m));
      [cbn [trace]; now rewrite skipn_length_app
      | now rewrite skipn_length_self].
  - intros [= <-].
    change (emitted_between m (exec (dp83826EventHandler H) m))
      with (emitted (dp83826EventHandler H) m).
    rewrite eventHandler_emitted. cbv zeta.
    destruct (nonzero (Z.land (answer m 0) (DP83826_MISR1_LINK_INT H)));
      [destruct (nonzero (Z.land (answer m 1) (DP83826_PHYSTS_LINK_STATUS H))) |];
      reflexivity.
Qed.

Lemma registers_read_by_entry_point_witness :
  readAddresses
    (emitted_between irq_none (exec (dp83826EventHandler datasheet) irq_none))
    = [0x12] /\
  readAddresses
    (emitted_between irq_down (exec (dp83826EventHandler datasheet) irq_down))
    = [0x12; 0x10] /\
  exists k,
    firstClear datasheet reset_set_set_clear k /\
    readAddresses (emitted_between reset_set_set_clear after_init)
    = repeat 0x00 (S k) ++ [].
Proof.
  split; [| split].
  - exact (registers_read_by_entry_point datasheet OpEventHandler irq_none
             _ eq_refl).
  - exact (registers_read_by_entry_point datasheet OpEventHandler irq_down
             _ eq_refl).
  - refine (registers_read_by_entry_point datasheet (OpInit 3)
              reset_set_set_clear after_init _).
    cbn [dp83826PhyDriver]. now rewrite init_run_set_set_clear.
Defined.
